(** * SkillSphere: the gap-analysis engine

    A shallow embedding of [ai-services/models/gap_analysis_model.py]
    (class [GapAnalysisModel]) and of the skill-name normaliser of
    [ai-services/utils/preprocessing.py], followed by the properties the
    specification states about them.

    Modelling conventions
    - Python [int] is [Z]; Python [float] is idealised as an exact rational
      [Q] (no rounding, no NaN, no infinities), and an [int] that meets a
      [float] is taken inside the binary64 range, where its conversion does
      not raise [OverflowError].
    - [str] is [string]; the [str] methods are modelled on ASCII text.
    - a [dict] used as a map is a [gmap string _]; a dict used as a record is
      a Rocq record, an optional key is an [option] field.
    - a call that may raise returns an [outcome].
    - the three things the module takes from its process environment
      (the builtin [hash], sklearn's [cosine_similarity] and the successive
      draws of [np.random.normal(0, 0.5)]) are the fields of a [World]. *)

From Stdlib Require Import ZArith QArith Qround Qabs String Ascii List Lia Lqa.
From Stdlib Require Import DecimalString Sorted.
From stdpp Require Import gmap strings list fin_maps.

Local Open Scope Z_scope.
Local Open Scope string_scope.
Local Open Scope list_scope.

(** ** Python values and control effects *)

Module Py.

(** Exceptions.  [NameError] and [ZeroDivisionError] are the ones the
    modelled code can raise, and both derive from [Exception];
    [KeyboardInterrupt] stands for the classes that derive from
    [BaseException] only, which an [except Exception] clause lets pass. *)
Inductive exn : Type :=
| NameError (name : string)
| ZeroDivisionError
| KeyboardInterrupt.

(** [isinstance(e, Exception)] *)
Definition derives_from_Exception (e : exn) : bool :=
  match e with
  | NameError _ => true
  | ZeroDivisionError => true
  | KeyboardInterrupt => false
  end.

(** [str(e)] *)
Definition str_of_exn (e : exn) : string :=
  match e with
  | NameError x => "name '" +:+ x +:+ "' is not defined"
  | ZeroDivisionError => "division by zero"
  | KeyboardInterrupt => ""
  end.

Inductive outcome (A : Type) : Type :=
| Returns (a : A)
| Raises (e : exn).
Arguments Returns {A} a.
Arguments Raises {A} e.

Definition bind {A B} (m : outcome A) (k : A -> outcome B) : outcome B :=
  match m with
  | Returns a => k a
  | Raises e => Raises e
  end.

(** [for x in l: acc.append(f(x))], stopping at the first exception. *)
Fixpoint for_each {A B} (f : A -> outcome B) (l : list A) : outcome (list B) :=
  match l with
  | [] => Returns []
  | x :: rest =>
      bind (f x) (fun y => bind (for_each f rest) (fun ys => Returns (y :: ys)))
  end.

(** [try: body  except Exception as e: handler(e)] *)
Definition try_except {A} (body : outcome A) (handler : exn -> A) : A :=
  match body with
  | Returns a => a
  | Raises e => handler e
  end.

(** The same statement as the caller sees it: the clause catches the
    instances of [Exception] only, and what it does not catch goes on to
    the caller. *)
Definition try_except_Exception {A} (body : outcome A) (handler : exn -> outcome A)
  : outcome A :=
  match body with
  | Returns a => Returns a
  | Raises e => if derives_from_Exception e then handler e else Raises e
  end.

(** Run-time values that a name can be bound to. *)
Inductive value : Type :=
| VInt (z : Z)
| VFloat (q : Q)
| VStr (s : string)
| VObj.

(** A scope: the names bound in it, innermost binding first. *)
Definition scope := list (string * value).

Fixpoint lookup_scope (x : string) (sc : scope) : option value :=
  match sc with
  | [] => None
  | (y, v) :: rest => if String.eqb x y then Some v else lookup_scope x rest
  end.

(** Loading a name inside a function body: the function's locals, then
    the module's globals; a name bound in neither raises [NameError]. *)
Definition load_name (locals globals : scope) (x : string) : outcome value :=
  match lookup_scope x locals with
  | Some v => Returns v
  | None =>
      match lookup_scope x globals with
      | Some v => Returns v
      | None => Raises (NameError x)
      end
  end.

(** [int(q)]: truncation toward zero. *)
Definition int_of_float (q : Q) : Z := Z.quot (Qnum q) (Z.pos (Qden q)).

(** [range(a, b)] *)
Definition range (a b : Z) : list Z :=
  map (fun i => a + Z.of_nat i) (seq 0 (Z.to_nat (b - a))).

(** [max(a, b)] and [min(a, b)] on numbers: the first argument is kept
    unless the second is strictly greater (smaller). *)
Definition max (a b : Q) : Q := if Qlt_le_dec a b then b else a.
Definition min (a b : Q) : Q := if Qlt_le_dec b a then b else a.

(** [a / b] *)
Definition truediv (a b : Q) : outcome Q :=
  if Qeq_bool b 0 then Raises ZeroDivisionError else Returns (a / b)%Q.

End Py.

#[global] Instance outcome_ret : MRet Py.outcome := @Py.Returns.
#[global] Instance outcome_bind : MBind Py.outcome :=
  fun A B k m => Py.bind m k.

(** ** [str] methods, on ASCII text *)

Module PyStr.

Definition is_upper (c : ascii) : bool :=
  let n := nat_of_ascii c in (65 <=? n)%nat && (n <=? 90)%nat.
Definition is_lower (c : ascii) : bool :=
  let n := nat_of_ascii c in (97 <=? n)%nat && (n <=? 122)%nat.
Definition is_cased (c : ascii) : bool := is_upper c || is_lower c.

Definition is_space (c : ascii) : bool :=
  let n := nat_of_ascii c in
  (n =? 32)%nat || ((9 <=? n)%nat && (n <=? 13)%nat)
  || ((28 <=? n)%nat && (n <=? 31)%nat).

Definition lower_char (c : ascii) : ascii :=
  if is_upper c then ascii_of_nat (nat_of_ascii c + 32) else c.
Definition upper_char (c : ascii) : ascii :=
  if is_lower c then ascii_of_nat (nat_of_ascii c - 32) else c.

(** [s.lower()] *)
Fixpoint lower (s : string) : string :=
  match s with
  | EmptyString => EmptyString
  | String c rest => String (lower_char c) (lower rest)
  end.

(** [needle in hay] *)
Fixpoint contains (needle hay : string) : bool :=
  String.prefix needle hay
  || match hay with
     | EmptyString => false
     | String _ rest => contains needle rest
     end.

Fixpoint lstrip (s : string) : string :=
  match s with
  | EmptyString => EmptyString
  | String c rest => if is_space c then lstrip rest else s
  end.

(** The empty string when [s] is all white space, else [s] without its
    trailing white space. *)
Fixpoint rstrip (s : string) : string :=
  match s with
  | EmptyString => EmptyString
  | String c rest =>
      match rstrip rest with
      | EmptyString => if is_space c then EmptyString else String c EmptyString
      | rest' => String c rest'
      end
  end.

(** [s.strip()] *)
Definition strip (s : string) : string := rstrip (lstrip s).

(** [s.title()]: a cased character is upper-cased when it follows an
    uncased one (or starts the string) and lower-cased otherwise. *)
Fixpoint title_from (prev_cased : bool) (s : string) : string :=
  match s with
  | EmptyString => EmptyString
  | String c rest =>
      String (if prev_cased then lower_char c else upper_char c)
             (title_from (is_cased c) rest)
  end.
Definition title (s : string) : string := title_from false s.

(** [str(z)], as an f-string replacement field formats an [int]. *)
Definition of_int (z : Z) : string := NilEmpty.string_of_int (Z.to_int z).

End PyStr.

#[local] Instance Qlt_decision (x y : Q) : Decision (x < y)%Q :=
  match Qlt_le_dec x y with
  | left H => left H
  | right H => right (Qle_not_lt _ _ H)
  end.

#[local] Instance Qle_decision (x y : Q) : Decision (x <= y)%Q :=
  match Qlt_le_dec y x with
  | left H => right (Qlt_not_le _ _ H)
  | right H => left H
  end.

(** ** The data model *)

(** One entry of [user_skills]; both keys are read with [dict.get], so
    either may be absent. *)
Record UserSkill : Type := {
  name : option string;
  level : option Z
}.

(** [market_data]: three optional sub-dictionaries keyed by skill name. *)
Record MarketData : Type := {
  skill_levels : option (gmap string Z);
  demand : option (gmap string Q);
  salary_impact : option (gmap string Q)
}.

(** What a call takes from the running process. *)
Record World : Type := {
  hash : string -> Z;                          (* the builtin hash() *)
  cosine_similarity : list Q -> list Q -> Q;   (* sklearn, on two vectors *)
  normal : nat -> Q                            (* k-th np.random.normal(0, 0.5) *)
}.

(** A gap dictionary.  The key ['is_missing'] is only set on the gaps built
    for missing skills. *)
Record Gap : Type := {
  skill_name : string;
  current_level : Z;
  required_level : Z;
  gap_size : Z;
  priority : Q;
  estimated_time : Z;
  is_missing : option bool
}.

Record Resource : Type := {
  res_type : string;
  res_name : string;
  provider : string;
  res_duration : string;
  res_level : string
}.

Record Milestone : Type := {
  ms_level : Z;
  description : string;
  ms_estimated_time : Q;
  criteria : list string
}.

Record Recommendation : Type := {
  rec_skill_name : string;
  rec_priority : Q;
  rec_current_level : Z;
  target_level : Z;
  rec_estimated_time : Z;
  actions : list string;
  resources : list Resource;
  milestones : list Milestone
}.

Record Phase : Type := {
  phase_name : string;
  duration : Z;
  skills : list Gap;
  start_month : Z;
  end_month : Z
}.

Record Timeline : Type := {
  phases : list Phase;
  total_duration : Z;
  critical_path : list string
}.

Record Summary : Type := {
  total_gaps : Z;
  high_priority_gaps : Z;
  total_development_time : Z;
  coverage_percentage : Q;
  match_score : Q
}.

(** The dictionary [analyze_gaps] returns.  The normal return has no
    ['error'] key; the handler's return has no ['recommendations'] and no
    ['timeline'] key. *)
Record AnalysisResult : Type := {
  error : option string;
  gaps : list Gap;
  summary : Summary;
  recommendations : option (list Recommendation);
  timeline : option Timeline
}.

(** [gap.get('is_missing', False)] *)
Definition get_is_missing (gap : Gap) : bool := default false (is_missing gap).

(** ** [GapAnalysisModel] *)

(** *** [_get_required_level] *)

(** The [if]/[elif] chain on the level keywords of one lower-cased
    requirement string. *)
Definition level_indicator (req_lower : string) : Z :=
  if PyStr.contains "senior" req_lower || PyStr.contains "expert" req_lower then 5
  else if PyStr.contains "intermediate" req_lower || PyStr.contains "mid" req_lower then 3
  else if PyStr.contains "junior" req_lower || PyStr.contains "entry" req_lower then 2
  else 4.

(** The [for req in job_requirements] loop: it returns at the first
    requirement whose lower-cased text contains [skill_name]; [None] when
    the loop runs to its end. *)
Fixpoint scan_requirements (skill_name : string) (job_requirements : list string)
  : option Z :=
  match job_requirements with
  | [] => None
  | req :: rest =>
      let req_lower := PyStr.lower req in
      if PyStr.contains skill_name req_lower
      then Some (level_indicator req_lower)
      else scan_requirements skill_name rest
  end.

(** [market_data.get('skill_levels', {}).get(skill_name, 3)] *)
Definition market_level (skill_name : string) (market_data : MarketData) : Z :=
  default 3 (default ∅ (skill_levels market_data) !! skill_name).

Definition _get_required_level (skill_name : string)
    (job_requirements : list string) (market_data : MarketData) : Z :=
  if decide (skill_name ∈ map PyStr.lower job_requirements) then
    match scan_requirements skill_name job_requirements with
    | Some lvl => lvl
    | None => market_level skill_name market_data
    end
  else market_level skill_name market_data.

(** *** [_calculate_priority] *)

Definition market_demand (skill_name : string) (market_data : MarketData) : Q :=
  default 0.5%Q (default ∅ (demand market_data) !! skill_name).

Definition market_salary_impact (skill_name : string) (market_data : MarketData) : Q :=
  default 0.5%Q (default ∅ (salary_impact market_data) !! skill_name).

Definition _calculate_priority (skill_name : string) (market_data : MarketData) : Q :=
  let priority := 0.5%Q in
  let priority := (priority + market_demand skill_name market_data * 0.3)%Q in
  let priority := (priority + market_salary_impact skill_name market_data * 0.2)%Q in
  Py.min 1 (Py.max 0 priority).

(** *** [_estimate_development_time]

    [variance] is the value drawn by [np.random.normal(0, 0.5)] in this
    call. *)
Definition _estimate_development_time (gap_size : Z) (variance : Q) : Z :=
  let base_time := (inject_Z gap_size * 2.5)%Q in
  Z.max 1 (Py.int_of_float (base_time + variance)).

(** *** [_calculate_coverage_percentage] *)

Definition _calculate_coverage_percentage (user_skills job_requirements : list string) : Q :=
  match job_requirements with
  | [] => 100%Q
  | _ =>
      let covered_skills := length (filter (fun skill => skill ∈ user_skills) job_requirements) in
      (inject_Z (Z.of_nat covered_skills) / inject_Z (Z.of_nat (length job_requirements)) * 100)%Q
  end.

(** *** [_calculate_match_score] and its two vectors *)

Definition _create_skill_vector (w : World) (user_skills : list UserSkill) : list Q :=
  foldl (fun skill_vector skill =>
           let skill_name := PyStr.lower (default "" (name skill)) in
           let skill_level := default 1 (level skill) in
           let hash_value := hash w skill_name `mod` 100 in
           <[Z.to_nat hash_value := (inject_Z skill_level / 5)%Q]> skill_vector)
        (replicate 100 0%Q) user_skills.

Definition _create_requirement_vector (w : World) (job_requirements : list string) : list Q :=
  foldl (fun requirement_vector req =>
           let req_lower := PyStr.lower req in
           let hash_value := hash w req_lower `mod` 100 in
           <[Z.to_nat hash_value := 1%Q]> requirement_vector)
        (replicate 100 0%Q) job_requirements.

Definition _calculate_match_score (w : World) (user_skills : list UserSkill)
    (job_requirements : list string) : Q :=
  match job_requirements with
  | [] => 100%Q
  | _ =>
      let user_skill_vector := _create_skill_vector w user_skills in
      let job_requirement_vector := _create_requirement_vector w job_requirements in
      let similarity := cosine_similarity w user_skill_vector job_requirement_vector in
      (similarity * 100)%Q
  end.

(** *** [_get_skill_development_actions] *)

Definition _get_skill_development_actions (skill_name : string) (gap : Gap) : list string :=
  (if get_is_missing gap then
     [ "Start learning " +:+ skill_name +:+ " from scratch";
       "Take an introductory course in " +:+ skill_name ]
   else
     [ "Improve " +:+ skill_name +:+ " from level "
         +:+ PyStr.of_int (current_level gap) +:+ " to "
         +:+ PyStr.of_int (required_level gap);
       "Practice " +:+ skill_name +:+ " in real-world projects" ])
  ++ [ "Seek mentorship in " +:+ skill_name;
       "Join " +:+ skill_name +:+ " communities and forums";
       "Work on " +:+ skill_name +:+ " projects in your current role" ].

(** *** [_get_learning_resources] *)

Definition _get_learning_resources (skill_name : string) (market_data : MarketData)
  : list Resource :=
  [ {| res_type := "course";
       res_name := "Complete " +:+ skill_name +:+ " Course";
       provider := "SkillSphere Learning";
       res_duration := "8-12 weeks";
       res_level := "Beginner to Advanced" |};
    {| res_type := "book";
       res_name := "The Complete Guide to " +:+ skill_name;
       provider := "Technical Books";
       res_duration := "Self-paced";
       res_level := "Comprehensive" |};
    {| res_type := "certification";
       res_name := skill_name +:+ " Professional Certification";
       provider := "Industry Standard";
       res_duration := "3-6 months";
       res_level := "Professional" |};
    {| res_type := "practice";
       res_name := skill_name +:+ " Practice Projects";
       provider := "SkillSphere Labs";
       res_duration := "Ongoing";
       res_level := "Hands-on" |} ].

(** *** [_get_level_criteria] *)

Definition _get_level_criteria (skill_name : string) (level : Z) : list string :=
  if decide (level = 1) then
    [ "Understand basic " +:+ skill_name +:+ " concepts";
      "Complete introductory " +:+ skill_name +:+ " tutorials";
      "Demonstrate basic " +:+ skill_name +:+ " knowledge" ]
  else if decide (level = 2) then
    [ "Apply " +:+ skill_name +:+ " in simple projects";
      "Understand intermediate " +:+ skill_name +:+ " concepts";
      "Complete " +:+ skill_name +:+ " exercises independently" ]
  else if decide (level = 3) then
    [ "Use " +:+ skill_name +:+ " in complex projects";
      "Teach " +:+ skill_name +:+ " to others";
      "Contribute to " +:+ skill_name +:+ " discussions and forums" ]
  else if decide (level = 4) then
    [ "Lead " +:+ skill_name +:+ " projects";
      "Design " +:+ skill_name +:+ " solutions";
      "Mentor others in " +:+ skill_name ]
  else if decide (level = 5) then
    [ "Expert-level " +:+ skill_name +:+ " knowledge";
      "Contribute to " +:+ skill_name +:+ " standards and best practices";
      "Recognized as " +:+ skill_name +:+ " expert in the industry" ]
  else [].

(** *** [_create_development_milestones] *)

(** The names bound at the top level of [gap_analysis_model.py]: its
    imports, [logger] and the class. *)
Definition module_globals : Py.scope :=
  map (fun x => (x, Py.VObj))
    [ "np"; "pd"; "Dict"; "List"; "Any"; "Optional"; "Tuple";
      "RandomForestRegressor"; "StandardScaler"; "cosine_similarity";
      "logging"; "logger"; "GapAnalysisModel" ].

(** The local names of [_create_development_milestones] inside its loop:
    the two parameters, the four assignments before the loop and the loop
    variable. *)
Definition milestone_locals (gap : Gap) (level : Z) : Py.scope :=
  [ ("self", Py.VObj);
    ("gap", Py.VObj);
    ("milestones", Py.VObj);
    ("current_level", Py.VInt (current_level gap));
    ("target_level", Py.VInt (required_level gap));
    ("total_time", Py.VInt (estimated_time gap));
    ("level", Py.VInt level) ].

(** How an f-string replacement field renders a value ([VFloat] and [VObj]
    are never rendered by the modelled code). *)
Definition format_value (v : Py.value) : string :=
  match v with
  | Py.VInt z => PyStr.of_int z
  | Py.VStr s => s
  | Py.VFloat _ => "<float>"
  | Py.VObj => "<object>"
  end.

(** One iteration of the loop: the dictionary literal, its values evaluated
    in source order. *)
Definition build_milestone (gap : Gap) (level : Z) : Py.outcome Milestone :=
  let current_level := current_level gap in
  let target_level := required_level gap in
  let total_time := estimated_time gap in
  v_skill_name ← Py.load_name (milestone_locals gap level) module_globals "skill_name";
  v_level ← Py.load_name (milestone_locals gap level) module_globals "level";
  let description :=
    "Reach " +:+ format_value v_skill_name +:+ " level " +:+ format_value v_level in
  estimated_time ← Py.truediv (inject_Z total_time) (inject_Z (target_level - current_level));
  mret {| ms_level := level;
          description := description;
          ms_estimated_time := estimated_time;
          criteria := _get_level_criteria (skill_name gap) level |}.

Definition _create_development_milestones (gap : Gap) : Py.outcome (list Milestone) :=
  Py.for_each (build_milestone gap)
              (Py.range (current_level gap + 1) (required_level gap + 1)).

(** *** Sorting by priority

    [sort(key=lambda x: x['priority'], reverse=True)]: descending and
    stable, so gaps of equal priority keep their order. *)
Fixpoint insert_by_priority (g : Gap) (l : list Gap) : list Gap :=
  match l with
  | [] => [g]
  | h :: t =>
      if decide (priority g < priority h)%Q
      then h :: insert_by_priority g t
      else g :: h :: t
  end.

Definition sort_by_priority (l : list Gap) : list Gap :=
  foldr insert_by_priority [] l.

(** *** [_generate_gap_recommendations] *)

Definition build_recommendation (market_data : MarketData) (gap : Gap)
  : Py.outcome Recommendation :=
  let skill_name := skill_name gap in
  let actions := _get_skill_development_actions skill_name gap in
  let resources := _get_learning_resources skill_name market_data in
  milestones ← _create_development_milestones gap;
  mret {| rec_skill_name := skill_name;
          rec_priority := priority gap;
          rec_current_level := current_level gap;
          target_level := required_level gap;
          rec_estimated_time := estimated_time gap;
          actions := actions;
          resources := resources;
          milestones := milestones |}.

Definition _generate_gap_recommendations (skill_gaps : list Gap)
    (market_data : MarketData) : Py.outcome (list Recommendation) :=
  let sorted_gaps := sort_by_priority skill_gaps in
  Py.for_each (build_recommendation market_data) (take 5 sorted_gaps).

(** *** [_create_development_timeline] *)

Definition high_band (skill_gaps : list Gap) : list Gap :=
  filter (fun gap => 0.8 <= priority gap)%Q skill_gaps.
Definition medium_band (skill_gaps : list Gap) : list Gap :=
  filter (fun gap => 0.5 <= priority gap /\ priority gap < 0.8)%Q skill_gaps.
Definition low_band (skill_gaps : list Gap) : list Gap :=
  filter (fun gap => priority gap < 0.5)%Q skill_gaps.

(** One [if band:] block: it appends a phase and advances [current_month]
    when the band is not empty.  The state is the pair of
    [timeline['phases']] and [current_month]. *)
Definition add_phase (phase_name : string) (band : list Gap)
    (st : list Phase * Z) : list Phase * Z :=
  let '(phases, current_month) := st in
  match band with
  | [] => st
  | _ =>
      (phases ++ [ {| phase_name := phase_name;
                      duration := 6;
                      skills := band;
                      start_month := current_month;
                      end_month := current_month + 6 |} ],
       current_month + 6)
  end.

Definition _create_development_timeline (skill_gaps : list Gap) : Timeline :=
  let high_priority := high_band skill_gaps in
  let medium_priority := medium_band skill_gaps in
  let low_priority := low_band skill_gaps in
  let st := ([], 0) in
  let st := add_phase "Critical Skills Development" high_priority st in
  let st := add_phase "Advanced Skills Development" medium_priority st in
  let st := add_phase "Specialized Skills Development" low_priority st in
  {| phases := st.1;
     total_duration := st.2;
     critical_path := map skill_name high_priority |}.

(** *** [analyze_gaps] *)

Definition user_skill_names (user_skills : list UserSkill) : list string :=
  map (fun skill => PyStr.lower (default "" (name skill))) user_skills.

Definition user_skill_levels (user_skills : list UserSkill) : list Z :=
  map (fun skill => default 1 (level skill)) user_skills.

Definition job_skill_names (job_requirements : list string) : list string :=
  map PyStr.lower job_requirements.

Definition missing_skills (user_skill_names job_skill_names : list string) : list string :=
  filter (fun skill => skill ∉ user_skill_names) job_skill_names.

(** The loop over [enumerate(user_skill_names)].  [k] counts the draws of
    [np.random.normal] made so far; the loop returns the gaps it appended
    and the new count. *)
Fixpoint existing_skill_gaps (w : World) (job_requirements : list string)
    (market_data : MarketData) (job_skill_names : list string)
    (named_levels : list (string * Z)) (k : nat) : list Gap * nat :=
  match named_levels with
  | [] => ([], k)
  | (skill_name, current_level) :: rest =>
      if decide (skill_name ∈ job_skill_names) then
        let required_level := _get_required_level skill_name job_requirements market_data in
        if decide (current_level < required_level) then
          let gap :=
            {| skill_name := skill_name;
               current_level := current_level;
               required_level := required_level;
               gap_size := required_level - current_level;
               priority := _calculate_priority skill_name market_data;
               estimated_time :=
                 _estimate_development_time (required_level - current_level) (normal w k);
               is_missing := None |} in
          let '(more, k') :=
            existing_skill_gaps w job_requirements market_data job_skill_names rest (S k) in
          (gap :: more, k')
        else existing_skill_gaps w job_requirements market_data job_skill_names rest k
      else existing_skill_gaps w job_requirements market_data job_skill_names rest k
  end.

(** The loop over [missing_skills]. *)
Fixpoint missing_skill_gaps (w : World) (job_requirements : list string)
    (market_data : MarketData) (missing : list string) (k : nat) : list Gap * nat :=
  match missing with
  | [] => ([], k)
  | skill_name :: rest =>
      let required_level := _get_required_level skill_name job_requirements market_data in
      let gap :=
        {| skill_name := skill_name;
           current_level := 0;
           required_level := required_level;
           gap_size := required_level;
           priority := _calculate_priority skill_name market_data;
           estimated_time := _estimate_development_time required_level (normal w k);
           is_missing := Some true |} in
      let '(more, k') := missing_skill_gaps w job_requirements market_data rest (S k) in
      (gap :: more, k')
  end.

(** The list [skill_gaps] as it stands after the two loops and the sort. *)
Definition skill_gaps (w : World) (user_skills : list UserSkill)
    (job_requirements : list string) (market_data : MarketData) : list Gap :=
  let names := user_skill_names user_skills in
  let levels := user_skill_levels user_skills in
  let jobs := job_skill_names job_requirements in
  let missing := missing_skills names jobs in
  let '(existing, k) :=
    existing_skill_gaps w job_requirements market_data jobs (zip names levels) 0 in
  let '(added, _) := missing_skill_gaps w job_requirements market_data missing k in
  sort_by_priority (existing ++ added).

(** The body of the [try] block. *)
Definition analyze_gaps_try (w : World) (user_skills : list UserSkill)
    (job_requirements : list string) (market_data : MarketData)
  : Py.outcome AnalysisResult :=
  let skill_gaps := skill_gaps w user_skills job_requirements market_data in
  let total_gaps := Z.of_nat (length skill_gaps) in
  let high_priority_gaps :=
    Z.of_nat (length (filter (fun gap => 0.8 <= priority gap)%Q skill_gaps)) in
  let total_development_time := foldr Z.add 0 (map estimated_time skill_gaps) in
  let summary :=
    {| total_gaps := total_gaps;
       high_priority_gaps := high_priority_gaps;
       total_development_time := total_development_time;
       coverage_percentage :=
         _calculate_coverage_percentage (user_skill_names user_skills)
                                        (job_skill_names job_requirements);
       match_score := _calculate_match_score w user_skills job_requirements |} in
  recommendations ← _generate_gap_recommendations skill_gaps market_data;
  mret {| error := None;
          gaps := skill_gaps;
          summary := summary;
          recommendations := Some recommendations;
          timeline := Some (_create_development_timeline skill_gaps) |}.

(** The [except Exception as e] handler. *)
Definition analyze_gaps_except (e : Py.exn) : AnalysisResult :=
  {| error := Some (Py.str_of_exn e);
     gaps := [];
     summary := {| total_gaps := 0;
                   high_priority_gaps := 0;
                   total_development_time := 0;
                   coverage_percentage := 0;
                   match_score := 0 |};
     recommendations := None;
     timeline := None |}.

Definition analyze_gaps (w : World) (user_skills : list UserSkill)
    (job_requirements : list string) (market_data : MarketData) : AnalysisResult :=
  Py.try_except (analyze_gaps_try w user_skills job_requirements market_data)
                analyze_gaps_except.

(** The call as its caller sees it: it returns a dictionary or passes on
    what the [except Exception] clause did not catch. *)
Definition analyze_gaps_call (w : World) (user_skills : list UserSkill)
    (job_requirements : list string) (market_data : MarketData)
  : Py.outcome AnalysisResult :=
  Py.try_except_Exception
    (analyze_gaps_try w user_skills job_requirements market_data)
    (fun e => Py.Returns (analyze_gaps_except e)).

(** ** [SkillsPreprocessor.normalize_skill_name] *)

Definition skill_mapping : gmap string string :=
  list_to_map
    [ ("javascript", "JavaScript"); ("js", "JavaScript");
      ("react.js", "React"); ("reactjs", "React");
      ("node.js", "Node.js"); ("nodejs", "Node.js");
      ("python", "Python"); ("java", "Java");
      ("c++", "C++"); ("c#", "C#");
      ("machine learning", "Machine Learning"); ("ml", "Machine Learning");
      ("artificial intelligence", "Artificial Intelligence");
      ("ai", "Artificial Intelligence");
      ("data science", "Data Science");
      ("project management", "Project Management");
      ("agile", "Agile"); ("scrum", "Scrum"); ("devops", "DevOps");
      ("cloud computing", "Cloud Computing");
      ("aws", "Amazon Web Services"); ("azure", "Microsoft Azure");
      ("gcp", "Google Cloud Platform") ].

Definition normalize_skill_name (skill : string) : string :=
  let skill_lower := PyStr.strip (PyStr.lower skill) in
  default (PyStr.title skill) (skill_mapping !! skill_lower).

(** ** The specification's side

    Definitions that follow the words of the specification, to be compared
    with the functions above. *)

Module Spec.

(** [clamp(x, lo, hi)] *)
Definition clamp (x lo hi : Q) : Q :=
  if decide (x < lo)%Q then lo else if decide (hi < x)%Q then hi else x.

(** A market signal looked up by skill name, [0.5] when absent. *)
Definition signal (table : option (gmap string Q)) (skill : string) : Q :=
  match table with
  | Some t => match t !! skill with Some v => v | None => 0.5%Q end
  | None => 0.5%Q
  end.

(** [clamp(0.5 + 0.3*market_demand + 0.2*salary_impact, 0, 1)] *)
Definition priority_formula (skill : string) (market_data : MarketData) : Q :=
  clamp (0.5 + 0.3 * signal (demand market_data) skill
             + 0.2 * signal (salary_impact market_data) skill)%Q 0 1.



(** The validation contract on a skill entry: a level from 1 to 5. *)
Definition validated (skill : UserSkill) : Prop :=
  1 <= default 1 (level skill) <= 5.

(** Descending priority order. *)
Definition priority_sorted (l : list Gap) : Prop :=
  StronglySorted (fun a b => (priority b <= priority a)%Q) l.

(** End-to-end scenario A, as the specification words it: exactly two gap
    records, one for python of size 3 against level 5, one for sql,
    missing, against level 3. *)
Definition scenario_A (gs : list Gap) : Prop :=
  exists g_python g_sql,
    (gs = [g_python; g_sql] \/ gs = [g_sql; g_python])
    /\ skill_name g_python = "python"
    /\ gap_size g_python = 3
    /\ required_level g_python = 5
    /\ skill_name g_sql = "sql"
    /\ get_is_missing g_sql = true
    /\ required_level g_sql = 3.

(** The bands that hold a gap, in their order. *)
Definition keep_nonempty (bands : list (list Gap)) : list (list Gap) :=
  List.filter (fun band => match band with [] => false | _ => true end) bands.

(** Timeline monotonicity: each phase ends where the next one starts. *)
Fixpoint chained (phases : list Phase) : Prop :=
  match phases with
  | [] => True
  | p :: rest =>
      match rest with
      | [] => True
      | q :: _ => end_month p = start_month q
      end /\ chained rest
  end.

(** Two entries that differ at most in the letter case of the name. *)
Definition same_lower_name (a b : UserSkill) : Prop :=
  PyStr.lower (default "" (name a)) = PyStr.lower (default "" (name b))
  /\ default 1 (level a) = default 1 (level b).

(** Whether a lower-cased requirement string carries a level keyword. *)
Definition has_level_keyword (req_lower : string) : bool :=
  PyStr.contains "senior" req_lower || PyStr.contains "expert" req_lower
  || PyStr.contains "intermediate" req_lower || PyStr.contains "mid" req_lower
  || PyStr.contains "junior" req_lower || PyStr.contains "entry" req_lower.

End Spec.

(** ** Sample inputs *)

Module Sample.

(** A process whose hash is constant, whose similarity is zero and whose
    noise is switched off. *)
Definition quiet : World :=
  {| hash := fun _ => 0;
     cosine_similarity := fun _ _ => 0%Q;
     normal := fun _ => 0%Q |}.

Definition no_market : MarketData :=
  {| skill_levels := None; demand := None; salary_impact := None |}.

(** A market that asks level 2 of sql. *)
Definition sql_market : MarketData :=
  {| skill_levels := Some {[ "sql" := 2 ]}; demand := None; salary_impact := None |}.

Definition python2 : list UserSkill := [ {| name := Some "python"; level := Some 2 |} ].
Definition senior_python_sql : list string := [ "Python (Senior)"; "SQL" ].

Definition sql_gap : Gap :=
  {| skill_name := "sql";
     current_level := 0;
     required_level := 4;
     gap_size := 4;
     priority := 0.75%Q;
     estimated_time := 10;
     is_missing := Some true |}.

Definition python_sql : list string := [ "Python"; "SQL" ].

(** The gap of a user at python level 2 against the plain requirement
    "Python", in a quiet process without market data. *)
Definition python_gap : Gap :=
  {| skill_name := "python";
     current_level := 2;
     required_level := 4;
     gap_size := 2;
     priority := _calculate_priority "python" no_market;
     estimated_time := 5;
     is_missing := None |}.

(** The two records built for scenario A. *)
Definition senior_python_gap (w : World) (md : MarketData) : Gap :=
  {| skill_name := "python (senior)";
     current_level := 0;
     required_level := 5;
     gap_size := 5;
     priority := _calculate_priority "python (senior)" md;
     estimated_time := _estimate_development_time 5 (normal w 0);
     is_missing := Some true |}.

Definition plain_sql_gap (w : World) (md : MarketData) : Gap :=
  {| skill_name := "sql";
     current_level := 0;
     required_level := 4;
     gap_size := 4;
     priority := _calculate_priority "sql" md;
     estimated_time := _estimate_development_time 4 (normal w 1);
     is_missing := Some true |}.

Definition javascript5 : list UserSkill := [ {| name := Some "javascript"; level := Some 5 |} ].
Definition JavaScript5 : list UserSkill := [ {| name := Some "JavaScript"; level := Some 5 |} ].
Definition js5 : list UserSkill := [ {| name := Some "js"; level := Some 5 |} ].

End Sample.

(** ** [TextPreprocessor.clean_text]

    The character classes of its three patterns, on ASCII text. *)

Module Re.

(** [\d] *)
Definition is_digit (c : ascii) : bool :=
  let n := nat_of_ascii c in (48 <=? n)%nat && (n <=? 57)%nat.

(** [\w]: letters, digits and the underscore. *)
Definition is_word (c : ascii) : bool :=
  PyStr.is_upper c || PyStr.is_lower c || is_digit c || (nat_of_ascii c =? 95)%nat.

(** [\s]: the space, the controls 9 to 13 and the separators 28 to 31. *)
Definition is_space (c : ascii) : bool :=
  let n := nat_of_ascii c in
  (n =? 32)%nat || ((9 <=? n)%nat && (n <=? 13)%nat)
  || ((28 <=? n)%nat && (n <=? 31)%nat).

(** [re.sub(r'[^\w\s]', ' ', text)] *)
Fixpoint blank_specials (text : string) : string :=
  match text with
  | EmptyString => EmptyString
  | String c rest =>
      String (if is_word c || is_space c then c else " "%char) (blank_specials rest)
  end.

(** [re.sub(r'\s+', ' ', text)]: every maximal run of white space becomes
    one space; [in_run] tells that the previous character was white
    space. *)
Fixpoint squeeze_from (in_run : bool) (text : string) : string :=
  match text with
  | EmptyString => EmptyString
  | String c rest =>
      if is_space c
      then if in_run then squeeze_from true rest
           else String " "%char (squeeze_from true rest)
      else String c (squeeze_from false rest)
  end.
Definition squeeze (text : string) : string := squeeze_from false text.

(** [re.sub(r'\d+', '', text)] *)
Fixpoint drop_digits (text : string) : string :=
  match text with
  | EmptyString => EmptyString
  | String c rest => if is_digit c then drop_digits rest else String c (drop_digits rest)
  end.

End Re.

(** [clean_text].  The final [strip] meets no white space but spaces, the
    squeeze having replaced every run of it by one space. *)
Definition clean_text (text : string) : string :=
  match text with
  | EmptyString => ""
  | _ =>
      let text := PyStr.lower text in
      let text := Re.blank_specials text in
      let text := Re.squeeze text in
      let text := Re.drop_digits text in
      PyStr.strip text
  end.

(** ** [SkillsPreprocessor.preprocess_skills_list] *)

(** One skill dictionary of the preprocessing module: the keys its
    functions test with [in]. *)
Record SkillEntry : Type := {
  entry_name : option string;
  entry_level : option Z;
  entry_experience : option Z;
  entry_description : option string
}.

(** The same dictionary as [analyze_gaps] reads it. *)
Definition to_user_skill (skill : SkillEntry) : UserSkill :=
  {| name := entry_name skill; level := entry_level skill |}.

(** The loop body: a copy of the dictionary with the name normalised and
    the description cleaned, each when the key is there. *)
Definition preprocess_skill (skill : SkillEntry) : SkillEntry :=
  {| entry_name := normalize_skill_name <$> entry_name skill;
     entry_level := entry_level skill;
     entry_experience := entry_experience skill;
     entry_description := clean_text <$> entry_description skill |}.

Definition preprocess_skills_list (skills : list SkillEntry) : list SkillEntry :=
  map preprocess_skill skills.

(** ** [DataValidator]

    The two static validators of [ai-services/utils/preprocessing.py]. *)

(** The body of the loop of [validate_skills_data] for the skill at
    index [i]: the messages its three [if]s append, in order. *)
Definition skill_entry_errors (i : nat) (skill : SkillEntry) : list string :=
  (match entry_name skill with
   | None => [ "Skill at index " +:+ PyStr.of_int (Z.of_nat i) +:+ " missing 'name' field" ]
   | Some _ => []
   end)
  ++ (match entry_level skill with
      | Some lvl =>
          if decide (1 <= lvl <= 5) then []
          else [ "Skill at index " +:+ PyStr.of_int (Z.of_nat i)
                 +:+ " has invalid level (must be 1-5)" ]
      | None => []
      end)
  ++ (match entry_experience skill with
      | Some years =>
          if decide (years < 0)
          then [ "Skill at index " +:+ PyStr.of_int (Z.of_nat i)
                 +:+ " has negative experience" ]
          else []
      | None => []
      end).

(** [for i, skill in enumerate(skills_data)], from index [i] on. *)
Fixpoint validate_skills_from (i : nat) (skills_data : list SkillEntry) : list string :=
  match skills_data with
  | [] => []
  | skill :: rest => skill_entry_errors i skill ++ validate_skills_from (S i) rest
  end.

Definition validate_skills_data (skills_data : list SkillEntry) : bool * list string :=
  let errors := validate_skills_from 0 skills_data in
  (Nat.eqb (length errors) 0, errors).

Definition required_fields : list string := [ "firstName"; "lastName"; "email" ].

(** [user_data] is a dictionary of text fields. *)
Definition validate_user_data (user_data : gmap string string) : bool * list string :=
  let errors :=
    flat_map (fun field =>
                match user_data !! field with
                | None => [ "Missing required field: " +:+ field ]
                | Some _ => []
                end) required_fields in
  let errors :=
    errors ++ match user_data !! "email" with
              | Some address =>
                  if PyStr.contains "@" address then [] else [ "Invalid email format" ]
              | None => []
              end in
  (Nat.eqb (length errors) 0, errors).

(** ** Vocabulary of the further properties *)

#[local] Instance Qeq_decision (x y : Q) : Decision (x == y)%Q := Qeq_dec x y.

Module Facts.

(** A skill dictionary the validator lets through. *)
Definition entry_ok (skill : SkillEntry) : Prop :=
  is_Some (entry_name skill)
  /\ (forall lvl, entry_level skill = Some lvl -> 1 <= lvl <= 5)
  /\ (forall years, entry_experience skill = Some years -> 0 <= years).

(** Market data whose signals are never negative. *)
Definition nonneg_signals (market_data : MarketData) : Prop :=
  forall skill,
    (0 <= market_demand skill market_data)%Q
    /\ (0 <= market_salary_impact skill market_data)%Q.

(** The user lists every requirement, at the level it asks or above. *)
Definition meets_every_requirement (user_skills : list UserSkill)
    (job_requirements : list string) (market_data : MarketData) : Prop :=
  Forall (fun req => PyStr.lower req ∈ user_skill_names user_skills) job_requirements
  /\ Forall (fun skill =>
               let skill_name := PyStr.lower (default "" (name skill)) in
               skill_name ∈ job_skill_names job_requirements ->
               _get_required_level skill_name job_requirements market_data
               <= default 1 (level skill))
            user_skills.

(** A gap with no level step left to take. *)
Definition no_step (gap : Gap) : Prop := required_level gap <= current_level gap.

(** The index a name is hashed to. *)
Definition slot (w : World) (text : string) : nat := Z.to_nat (hash w text `mod` 100).

Definition good_entry : SkillEntry :=
  {| entry_name := Some "python";
     entry_level := Some 2;
     entry_experience := Some 3;
     entry_description := Some "Wrote  3 ETL-jobs & APIs!" |}.

(** Text made of ASCII characters only. *)
Fixpoint ascii_only (text : string) : Prop :=
  match text with
  | EmptyString => True
  | String c rest => (nat_of_ascii c < 128)%nat /\ ascii_only rest
  end.

(** Every character of the text passes the test. *)
Fixpoint all_chars (test : ascii -> bool) (text : string) : Prop :=
  match text with
  | EmptyString => True
  | String c rest => test c = true /\ all_chars test rest
  end.

(** A lower-case letter, an underscore or a space. *)
Definition is_clean_char (c : ascii) : bool :=
  PyStr.is_lower c || (nat_of_ascii c =? 95)%nat || (nat_of_ascii c =? 32)%nat.

(** What a character can be after the special characters were blanked:
    a lower-case letter, a digit, an underscore or white space. *)
Definition is_blanked_char (c : ascii) : bool :=
  PyStr.is_lower c || Re.is_digit c || (nat_of_ascii c =? 95)%nat || Re.is_space c.

(** And after the white space was squeezed: a lower-case letter, a digit,
    an underscore or a space. *)
Definition is_squeezed_char (c : ascii) : bool :=
  PyStr.is_lower c || Re.is_digit c || (nat_of_ascii c =? 95)%nat
  || (nat_of_ascii c =? 32)%nat.

(** Whether the text starts, or ends, with a space. *)
Fixpoint ends_with_space (text : string) : bool :=
  match text with
  | EmptyString => false
  | String c EmptyString => (nat_of_ascii c =? 32)%nat
  | String _ rest => ends_with_space rest
  end.
Definition starts_with_space (text : string) : bool :=
  match text with
  | EmptyString => false
  | String c _ => (nat_of_ascii c =? 32)%nat
  end.

End Facts.

(** * Properties *)

(** ** Strings *)

Lemma prefix_refl (s : string) : String.prefix s s = true.
Proof.
  induction s as [|c s IH]; simpl; [reflexivity|].
  destruct (Ascii.ascii_dec c c); [exact IH | contradiction].
Qed.

Lemma contains_refl (s : string) : PyStr.contains s s = true.
Proof.
  destruct s as [|c s]; [reflexivity|].
  change (String.prefix (String c s) (String c s)
          || PyStr.contains (String c s) s = true).
  rewrite prefix_refl. reflexivity.
Qed.

(** ** Exceptions and loops *)

Lemma for_each_raises_head {A B} (f : A -> Py.outcome B) x rest e :
  f x = Py.Raises e -> Py.for_each f (x :: rest) = Py.Raises e.
Proof. intros H. simpl. rewrite H. reflexivity. Qed.

Lemma range_cons (a b : Z) : a < b -> Py.range a b = a :: Py.range (a + 1) b.
Proof.
  intros Hlt. unfold Py.range.
  replace (Z.to_nat (b - a)) with (S (Z.to_nat (b - (a + 1)))) by lia.
  simpl seq. simpl map. f_equal; [lia|].
  rewrite <- seq_shift, map_map. apply map_ext. intros i. lia.
Qed.

(** ** Milestones *)

Lemma skill_name_unbound gap level :
  Py.load_name (milestone_locals gap level) module_globals "skill_name"
  = Py.Raises (Py.NameError "skill_name").
Proof. reflexivity. Qed.

Lemma build_milestone_raises gap level :
  build_milestone gap level = Py.Raises (Py.NameError "skill_name").
Proof. reflexivity. Qed.

Lemma milestones_raise gap :
  current_level gap < required_level gap ->
  _create_development_milestones gap = Py.Raises (Py.NameError "skill_name").
Proof.
  intros Hlt. unfold _create_development_milestones.
  rewrite range_cons by lia.
  apply for_each_raises_head, build_milestone_raises.
Qed.

Lemma milestones_empty gap :
  required_level gap <= current_level gap ->
  _create_development_milestones gap = Py.Returns [].
Proof.
  intros Hle. unfold _create_development_milestones, Py.range.
  replace (Z.to_nat _) with 0%nat by lia. reflexivity.
Qed.

(** ** Required levels *)

Lemma level_indicator_range (req_lower : string) :
  2 <= level_indicator req_lower <= 5.
Proof.
  unfold level_indicator.
  repeat match goal with |- context [if ?b then _ else _] => destruct b end; lia.
Qed.

Lemma level_indicator_default (req_lower : string) :
  Spec.has_level_keyword req_lower = false -> level_indicator req_lower = 4.
Proof.
  unfold Spec.has_level_keyword, level_indicator. intros H.
  repeat (apply orb_false_elim in H; destruct H as [H ?]).
  repeat match goal with E : _ = false |- _ => rewrite E; clear E end.
  reflexivity.
Qed.

(** The loop stops at the first requirement that contains the name. *)
Lemma scan_requirements_first (skill_name : string) (job_requirements : list string) :
  skill_name ∈ map PyStr.lower job_requirements ->
  exists before req after,
    job_requirements = before ++ req :: after
    /\ Forall (fun r => PyStr.contains skill_name (PyStr.lower r) = false) before
    /\ PyStr.contains skill_name (PyStr.lower req) = true
    /\ scan_requirements skill_name job_requirements
       = Some (level_indicator (PyStr.lower req)).
Proof.
  induction job_requirements as [|r rest IH]; intros Hin.
  - inversion Hin.
  - simpl scan_requirements.
    destruct (PyStr.contains skill_name (PyStr.lower r)) eqn:Hc.
    + exists [], r, rest. repeat split; auto.
    + simpl in Hin. apply elem_of_cons in Hin as [Heq | Hin].
      * subst skill_name. rewrite contains_refl in Hc. discriminate.
      * destruct (IH Hin) as (before & req & after & -> & Hb & Hr & Hs).
        exists (r :: before), req, after. repeat split; auto.
Qed.

Lemma required_level_listed skill_name job_requirements market_data :
  skill_name ∈ map PyStr.lower job_requirements ->
  2 <= _get_required_level skill_name job_requirements market_data <= 5.
Proof.
  intros Hin. unfold _get_required_level.
  destruct (decide _) as [_|Hn]; [|contradiction].
  destruct (scan_requirements_first _ _ Hin) as (? & req & ? & _ & _ & _ & ->).
  apply level_indicator_range.
Qed.

(** ** Sorting *)

Lemma insert_by_priority_perm g l : insert_by_priority g l ≡ₚ g :: l.
Proof.
  induction l as [|h t IH]; simpl; [reflexivity|].
  destruct (decide _); [|reflexivity].
  rewrite IH. apply Permutation_swap.
Qed.

Lemma sort_by_priority_perm l : sort_by_priority l ≡ₚ l.
Proof.
  induction l as [|g l IH]; simpl; [reflexivity|].
  rewrite insert_by_priority_perm, IH. reflexivity.
Qed.

Lemma elem_of_sort_by_priority g l : g ∈ sort_by_priority l <-> g ∈ l.
Proof. rewrite sort_by_priority_perm. reflexivity. Qed.

Lemma sort_by_priority_nil_inv l : sort_by_priority l = [] -> l = [].
Proof.
  intros H. apply Permutation_nil_r. rewrite <- H.
  symmetry. apply sort_by_priority_perm.
Qed.

(** ** The two gap-building loops *)

Lemma existing_skill_gaps_elem w reqs md jobs named_levels k g :
  g ∈ (existing_skill_gaps w reqs md jobs named_levels k).1 ->
  (skill_name g, current_level g) ∈ named_levels
  /\ skill_name g ∈ jobs
  /\ required_level g = _get_required_level (skill_name g) reqs md
  /\ current_level g < required_level g
  /\ gap_size g = required_level g - current_level g
  /\ is_missing g = None.
Proof.
  revert k. induction named_levels as [|[n lvl] rest IH]; intros k; simpl.
  - intros H. inversion H.
  - destruct (decide (n ∈ jobs)) as [Hj|Hj].
    + destruct (decide (lvl < _)) as [Hlt|Hge].
      * destruct (existing_skill_gaps w reqs md jobs rest (S k)) as [more k'] eqn:E.
        simpl. intros [-> | Hin]%elem_of_cons.
        -- simpl. repeat split; auto. left.
        -- specialize (IH (S k)). rewrite E in IH.
           destruct (IH Hin) as (? & ?). split; [right|]; auto.
      * intros Hin. destruct (IH k Hin) as (? & ?). split; [right|]; auto.
    + intros Hin. destruct (IH k Hin) as (? & ?). split; [right|]; auto.
Qed.

Lemma missing_skill_gaps_elem w reqs md missing k g :
  g ∈ (missing_skill_gaps w reqs md missing k).1 ->
  skill_name g ∈ missing
  /\ current_level g = 0
  /\ required_level g = _get_required_level (skill_name g) reqs md
  /\ gap_size g = required_level g
  /\ is_missing g = Some true.
Proof.
  revert k. induction missing as [|n rest IH]; intros k; simpl.
  - intros H. inversion H.
  - destruct (missing_skill_gaps w reqs md rest (S k)) as [more k'] eqn:E.
    simpl. intros [-> | Hin]%elem_of_cons.
    + simpl. repeat split; auto. left.
    + specialize (IH (S k)). rewrite E in IH.
      destruct (IH Hin) as (? & ?). split; [right|]; auto.
Qed.

(** Every record of [skill_gaps] comes from one of the two loops. *)
Lemma skill_gaps_elem w user_skills reqs md g :
  g ∈ skill_gaps w user_skills reqs md ->
  skill_name g ∈ job_skill_names reqs
  /\ required_level g = _get_required_level (skill_name g) reqs md
  /\ ((current_level g ∈ user_skill_levels user_skills
       /\ current_level g < required_level g
       /\ gap_size g = required_level g - current_level g
       /\ is_missing g = None)
      \/ (current_level g = 0
          /\ gap_size g = required_level g
          /\ is_missing g = Some true)).
Proof.
  unfold skill_gaps.
  destruct (existing_skill_gaps _ _ _ _ _ _) as [existing k] eqn:E1.
  destruct (missing_skill_gaps _ _ _ _ _) as [added k'] eqn:E2.
  rewrite elem_of_sort_by_priority, elem_of_app. intros [Hin | Hin].
  - pose proof (existing_skill_gaps_elem w reqs md (job_skill_names reqs)
                  (zip (user_skill_names user_skills) (user_skill_levels user_skills))
                  0 g) as H.
    rewrite E1 in H. destruct (H Hin) as (Hz & Hj & Hr & Hlt & Hs & Hm).
    repeat split; auto. left. repeat split; auto.
    apply elem_of_zip_r in Hz. exact Hz.
  - pose proof (missing_skill_gaps_elem w reqs md
                  (missing_skills (user_skill_names user_skills) (job_skill_names reqs))
                  k g) as H.
    rewrite E2 in H. destruct (H Hin) as (Hms & Hc & Hr & Hs & Hm).
    unfold missing_skills in Hms. apply list_elem_of_filter in Hms as [_ Hj].
    repeat split; auto.
Qed.

Lemma skill_gap_positive w user_skills reqs md g :
  g ∈ skill_gaps w user_skills reqs md ->
  current_level g < required_level g.
Proof.
  intros Hin. destruct (skill_gaps_elem _ _ _ _ _ Hin) as (Hj & Hr & Hcase).
  pose proof (required_level_listed _ _ md Hj) as Hrange. rewrite <- Hr in Hrange.
  destruct Hcase as [(_ & Hlt & _) | (Hc & _)]; lia.
Qed.

(** ** Recommendations *)

Lemma build_recommendation_raises md gap :
  current_level gap < required_level gap ->
  build_recommendation md gap = Py.Raises (Py.NameError "skill_name").
Proof.
  intros Hlt. unfold build_recommendation.
  rewrite (milestones_raise gap Hlt). reflexivity.
Qed.

Lemma generate_gap_recommendations_nil md :
  _generate_gap_recommendations [] md = Py.Returns [].
Proof. reflexivity. Qed.

(** With at least one gap, and every gap a real one, the first
    recommendation already fails. *)
Lemma generate_gap_recommendations_raises gs md :
  gs <> [] ->
  (forall g, g ∈ gs -> current_level g < required_level g) ->
  _generate_gap_recommendations gs md = Py.Raises (Py.NameError "skill_name").
Proof.
  intros Hne Hpos. unfold _generate_gap_recommendations.
  destruct (sort_by_priority gs) as [|h t] eqn:E.
  - apply sort_by_priority_nil_inv in E. contradiction.
  - change (take 5 (h :: t)) with (h :: take 4 t).
    apply for_each_raises_head, build_recommendation_raises, Hpos.
    apply elem_of_sort_by_priority. rewrite E. left.
Qed.

(** What the [try] block does: it returns when there is no gap and raises
    [NameError] when there is one. *)
Lemma analyze_gaps_try_no_gap w user_skills reqs md :
  skill_gaps w user_skills reqs md = [] ->
  analyze_gaps_try w user_skills reqs md
  = Py.Returns
      {| error := None;
         gaps := [];
         summary :=
           {| total_gaps := 0;
              high_priority_gaps := 0;
              total_development_time := 0;
              coverage_percentage :=
                _calculate_coverage_percentage (user_skill_names user_skills)
                                               (job_skill_names reqs);
              match_score := _calculate_match_score w user_skills reqs |};
         recommendations := Some [];
         timeline := Some {| phases := []; total_duration := 0; critical_path := [] |} |}.
Proof. intros H. unfold analyze_gaps_try. rewrite H. reflexivity. Qed.

Lemma analyze_gaps_try_some_gap w user_skills reqs md :
  skill_gaps w user_skills reqs md <> [] ->
  analyze_gaps_try w user_skills reqs md = Py.Raises (Py.NameError "skill_name").
Proof.
  intros H. unfold analyze_gaps_try.
  rewrite (generate_gap_recommendations_raises _ md H); [reflexivity|].
  intros g. apply skill_gap_positive.
Qed.


(** The two ways a call ends. *)
Lemma analyze_gaps_dichotomy w user_skills reqs md :
  (skill_gaps w user_skills reqs md = []
   /\ error (analyze_gaps w user_skills reqs md) = None)
  \/ (skill_gaps w user_skills reqs md <> []
      /\ analyze_gaps w user_skills reqs md
         = analyze_gaps_except (Py.NameError "skill_name")).
Proof.
  unfold analyze_gaps.
  destruct (skill_gaps w user_skills reqs md) as [|h t] eqn:E.
  - left. rewrite (analyze_gaps_try_no_gap _ _ _ _ E). auto.
  - right. split; [discriminate|].
    rewrite analyze_gaps_try_some_gap by (rewrite E; discriminate). reflexivity.
Qed.

(** C1.  Milestone generation is not well-defined: the description of a
    milestone reads the name [skill_name], which is bound neither in
    [_create_development_milestones] nor in the module, so the first level
    step raises [NameError].  Shown on the gap for sql (level 0 against 4):
    the milestone builder raises, the recommendation generator raises with it,
    and [analyze_gaps] ends in its handler. *)
Theorem milestones_raise_name_error :
  _create_development_milestones Sample.sql_gap
  = Py.Raises (Py.NameError "skill_name")
  /\ _generate_gap_recommendations [Sample.sql_gap] Sample.no_market
     = Py.Raises (Py.NameError "skill_name")
  /\ analyze_gaps Sample.quiet [] ["SQL"] Sample.no_market
     = analyze_gaps_except (Py.NameError "skill_name").
Proof. repeat split; vm_compute; reflexivity. Qed.

(** The [try] block raises nothing but [NameError], which an
    [except Exception] clause catches. *)
Lemma analyze_gaps_try_raises_exception w user_skills reqs md e :
  analyze_gaps_try w user_skills reqs md = Py.Raises e ->
  e = Py.NameError "skill_name" /\ Py.derives_from_Exception e = true.
Proof.
  intros Hraise.
  destruct (skill_gaps w user_skills reqs md) as [|h t] eqn:E.
  - rewrite (analyze_gaps_try_no_gap _ _ _ _ E) in Hraise. discriminate.
  - rewrite analyze_gaps_try_some_gap in Hraise by (rewrite E; discriminate).
    injection Hraise as <-. split; reflexivity.
Qed.


(** The dictionary [analyze_gaps] stands for is the one the call returns. *)
Lemma analyze_gaps_call_returns w user_skills reqs md :
  analyze_gaps_call w user_skills reqs md
  = Py.Returns (analyze_gaps w user_skills reqs md).
Proof.
  unfold analyze_gaps_call, analyze_gaps.
  destruct (analyze_gaps_try w user_skills reqs md) as [r|e] eqn:Htry; [reflexivity|].
  destruct (analyze_gaps_try_raises_exception _ _ _ _ _ Htry) as [-> _]. reflexivity.
Qed.

(** ** Gap records *)




(** A user skill at or above the required level leaves no record: with
    python at level 4 against the plain requirement "Python" the gap list
    is empty. *)
Lemma met_requirement_builds_no_record :
  skill_gaps Sample.quiet [ {| name := Some "python"; level := Some 4 |} ]
    ["Python"] Sample.no_market = []
  /\ skill_gaps Sample.quiet [ {| name := Some "python"; level := Some 5 |} ]
       ["Python"] Sample.no_market = [].
Proof. split; vm_compute; reflexivity. Qed.

(** ** Scenario A *)

(** C3, counterexample.  Scenario A as worded does not hold, neither of the
    gap list the computation builds (its python record is named
    "python (senior)" with size 5, its sql record asks level 4) nor of the
    ['gaps'] of the returned dictionary (empty). *)
Lemma scenario_A_fails :
  ~ Spec.scenario_A
      (skill_gaps Sample.quiet Sample.python2 Sample.senior_python_sql Sample.no_market)
  /\ ~ Spec.scenario_A
         (gaps (analyze_gaps Sample.quiet Sample.python2 Sample.senior_python_sql
                  Sample.no_market)).
Proof.
  split; intros (g_python & g_sql & Hshape & Hn & _ & _ & Hs & _);
    vm_compute in Hshape; destruct Hshape as [H | H];
    try discriminate H; injection H as <- <-; discriminate.
Qed.

(** C3 (amended).  For [user_skills = [{name: "python", level: 2}]] and
    [job_requirements = ["Python (Senior)", "SQL"]] the gap computation
    builds exactly two records, both missing skills at current level 0: one
    named "python (senior)" with required level 5 and size 5, one named
    "sql" with required level 4 and size 4, whatever the market data; the
    first stands first unless sql has the strictly higher priority. *)
Theorem scenario_A_gap_list w md :
  skill_gaps w Sample.python2 Sample.senior_python_sql md
  = if decide (priority (Sample.senior_python_gap w md)
               < priority (Sample.plain_sql_gap w md))%Q
    then [Sample.plain_sql_gap w md; Sample.senior_python_gap w md]
    else [Sample.senior_python_gap w md; Sample.plain_sql_gap w md].
Proof.
  assert (existing_skill_gaps w Sample.senior_python_sql md
            (job_skill_names Sample.senior_python_sql)
            (zip (user_skill_names Sample.python2) (user_skill_levels Sample.python2)) 0
          = ([], 0%nat)) as Hexisting by reflexivity.
  assert (missing_skills (user_skill_names Sample.python2)
                         (job_skill_names Sample.senior_python_sql)
          = ["python (senior)"; "sql"]) as Hmissing by reflexivity.
  assert (_get_required_level "python (senior)" Sample.senior_python_sql md = 5)
    as Hpython by reflexivity.
  assert (_get_required_level "sql" Sample.senior_python_sql md = 4)
    as Hsql by reflexivity.
  unfold skill_gaps. rewrite Hexisting, Hmissing.
  unfold missing_skill_gaps. rewrite Hpython, Hsql.
  reflexivity.
Qed.

(** ** Priority *)

Lemma market_demand_signal skill md :
  market_demand skill md = Spec.signal (demand md) skill.
Proof.
  unfold market_demand, Spec.signal.
  destruct (demand md) as [t|]; simpl.
  - destruct (t !! skill); reflexivity.
  - rewrite lookup_empty. reflexivity.
Qed.

Lemma market_salary_impact_signal skill md :
  market_salary_impact skill md = Spec.signal (salary_impact md) skill.
Proof.
  unfold market_salary_impact, Spec.signal.
  destruct (salary_impact md) as [t|]; simpl.
  - destruct (t !! skill); reflexivity.
  - rewrite lookup_empty. reflexivity.
Qed.

(** [min(1.0, max(0.0, p))] is the clamp of [p] to the unit interval. *)
Lemma min_max_is_clamp (p p' : Q) :
  (p == p')%Q -> (Py.min 1 (Py.max 0 p) == Spec.clamp p' 0 1)%Q.
Proof.
  intros Heq. unfold Py.min, Py.max, Spec.clamp.
  destruct (Qlt_le_dec 0 p) as [Hp|Hp];
    [destruct (Qlt_le_dec p 1) as [H1|H1] | destruct (Qlt_le_dec 0 1) as [H1|H1]];
    destruct (decide (p' < 0)%Q) as [Hlo|Hlo];
    try destruct (decide (1 < p')%Q) as [Hhi|Hhi];
    lra.
Qed.

Lemma min_max_bounds (p : Q) : (0 <= Py.min 1 (Py.max 0 p) <= 1)%Q.
Proof.
  unfold Py.min, Py.max.
  destruct (Qlt_le_dec 0 p) as [Hp|Hp];
    [destruct (Qlt_le_dec p 1) | destruct (Qlt_le_dec 0 1)]; lra.
Qed.

(** C5.  The priority of a gap is
    [clamp(0.5 + 0.3*market_demand + 0.2*salary_impact, 0, 1)], the two
    signals looked up by skill name and 0.5 when absent; so it lies in
    [0, 1].  (Numbers are exact rationals.) *)
Theorem priority_is_clamped_formula skill md :
  (_calculate_priority skill md == Spec.priority_formula skill md)%Q
  /\ (0 <= _calculate_priority skill md <= 1)%Q.
Proof.
  split.
  - unfold _calculate_priority, Spec.priority_formula.
    apply min_max_is_clamp.
    rewrite market_demand_signal, market_salary_impact_signal. lra.
  - apply min_max_bounds.
Qed.

(** ** Development time *)


Lemma int_of_float_scaled (n : Z) (variance : Q) :
  Py.int_of_float (inject_Z n * 2.5 + variance)
  = Z.quot (n * 25 * Z.pos (Qden variance) + Qnum variance * 10)
           (Z.pos (10 * Qden variance)).
Proof.
  unfold Py.int_of_float. destruct variance as [vn vd]. simpl.
  f_equal; lia.
Qed.




(** ** The required level *)

(** C10.  For a skill name that is one of the lower-cased requirement
    strings, the required level is read off the first requirement, in list
    order, whose lower-cased text contains the name as a substring: 5 when
    that text contains "senior" or "expert", else 3 when it contains
    "intermediate" or "mid", else 2 when it contains "junior" or "entry",
    else 4.  The market data is not consulted, so a requirement without a
    level keyword gives 4 whatever level the market asks. *)
Theorem required_level_from_first_containing skill reqs md :
  skill ∈ map PyStr.lower reqs ->
  exists before req after,
    reqs = before ++ req :: after
    /\ Forall (fun r => PyStr.contains skill (PyStr.lower r) = false) before
    /\ PyStr.contains skill (PyStr.lower req) = true
    /\ _get_required_level skill reqs md
       = (if PyStr.contains "senior" (PyStr.lower req)
             || PyStr.contains "expert" (PyStr.lower req) then 5
          else if PyStr.contains "intermediate" (PyStr.lower req)
                  || PyStr.contains "mid" (PyStr.lower req) then 3
          else if PyStr.contains "junior" (PyStr.lower req)
                  || PyStr.contains "entry" (PyStr.lower req) then 2
          else 4)
    /\ (Spec.has_level_keyword (PyStr.lower req) = false ->
        _get_required_level skill reqs md = 4).
Proof.
  intros Hin.
  destruct (scan_requirements_first skill reqs Hin)
    as (before & req & after & Hsplit & Hbefore & Hreq & Hscan).
  assert (_get_required_level skill reqs md = level_indicator (PyStr.lower req))
    as Hlevel.
  { unfold _get_required_level.
    destruct (decide _) as [_|Hn]; [|contradiction].
    rewrite Hscan. reflexivity. }
  exists before, req, after. repeat split; auto.
  intros Hkw. rewrite Hlevel. apply level_indicator_default, Hkw.
Qed.

Lemma required_level_from_first_containing_witness :
  exists before req after,
    ["JavaScript (Senior)"; "Java (Junior)"; "Java"] = before ++ req :: after
    /\ Forall (fun r => PyStr.contains "java" (PyStr.lower r) = false) before
    /\ PyStr.contains "java" (PyStr.lower req) = true
    /\ _get_required_level "java" ["JavaScript (Senior)"; "Java (Junior)"; "Java"]
         Sample.sql_market
       = (if PyStr.contains "senior" (PyStr.lower req)
             || PyStr.contains "expert" (PyStr.lower req) then 5
          else if PyStr.contains "intermediate" (PyStr.lower req)
                  || PyStr.contains "mid" (PyStr.lower req) then 3
          else if PyStr.contains "junior" (PyStr.lower req)
                  || PyStr.contains "entry" (PyStr.lower req) then 2
          else 4).
Proof.
  destruct (required_level_from_first_containing "java"
              ["JavaScript (Senior)"; "Java (Junior)"; "Java"] Sample.sql_market)
    as (before & req & after & Hsplit & Hbefore & Hreq & Hlevel & _).
  - vm_compute. right. right. left.
  - destruct before as [|r before].
    + injection Hsplit as <- <-.
      exists [], "JavaScript (Senior)", ["Java (Junior)"; "Java"]. repeat split; auto.
    + inversion Hbefore as [|? ? Hr _]; subst. injection Hsplit as <- _.
      vm_compute in Hr. discriminate Hr.
Defined.

(** The instances the claim names, and one for every keyword: "java" takes
    level 5 from the earlier "JavaScript (Senior)" although a later
    requirement that contains it says junior; a plain "SQL" asks level 4
    although the market asks level 2 of sql; a name that is no requirement
    string gets the market level, 3 by default. *)
Lemma required_level_instances :
  _get_required_level "java" ["JavaScript (Senior)"; "Java (Junior)"; "Java"]
    Sample.no_market = 5
  /\ _get_required_level "java (junior)" ["JavaScript (Senior)"; "Java (Junior)"; "Java"]
       Sample.no_market = 2
  /\ _get_required_level "sql" ["SQL"] Sample.sql_market = 4
  /\ market_level "sql" Sample.sql_market = 2
  /\ _get_required_level "go (expert)" ["Go (Expert)"] Sample.no_market = 5
  /\ _get_required_level "intermediate sql" ["Intermediate SQL"] Sample.no_market = 3
  /\ _get_required_level "mid-level go" ["Mid-level Go"] Sample.no_market = 3
  /\ _get_required_level "entry level rust" ["Entry level Rust"] Sample.no_market = 2
  /\ _get_required_level "senior or junior" ["Senior or Junior"] Sample.no_market = 5
  /\ _get_required_level "rust" ["Python"] Sample.sql_market = 3.
Proof. repeat split; vm_compute; reflexivity. Qed.

(** ** Coverage and the empty requirement list *)

Lemma coverage_bounds (user_skills job_requirements : list string) :
  (0 <= _calculate_coverage_percentage user_skills job_requirements <= 100)%Q.
Proof.
  unfold _calculate_coverage_percentage.
  destruct job_requirements as [|r rest]; [lra|].
  set (l := r :: rest).
  pose proof (length_filter (fun skill => skill ∈ user_skills) l) as Hle.
  set (c := length (filter _ l)) in *.
  assert (0 < inject_Z (Z.of_nat (length l)))%Q as Hpos.
  { change 0%Q with (inject_Z 0). rewrite <- Zlt_Qlt. simpl. lia. }
  assert (0 <= inject_Z (Z.of_nat c))%Q as Hc0.
  { change 0%Q with (inject_Z 0). rewrite <- Zle_Qle. lia. }
  assert (inject_Z (Z.of_nat c) <= inject_Z (Z.of_nat (length l)))%Q as Hcn.
  { rewrite <- Zle_Qle. lia. }
  assert (0 <= inject_Z (Z.of_nat c) / inject_Z (Z.of_nat (length l)))%Q as H0.
  { apply Qle_shift_div_l; [exact Hpos | lra]. }
  assert (inject_Z (Z.of_nat c) / inject_Z (Z.of_nat (length l)) <= 1)%Q as H1.
  { apply Qle_shift_div_r; [exact Hpos | lra]. }
  lra.
Qed.

Lemma existing_skill_gaps_no_jobs w reqs md named_levels k :
  existing_skill_gaps w reqs md [] named_levels k = ([], k).
Proof.
  revert k. induction named_levels as [|[n lvl] rest IH]; intros k; simpl.
  - reflexivity.
  - destruct (decide (n ∈ [])) as [Hin|_]; [inversion Hin | apply IH].
Qed.

Lemma skill_gaps_no_requirements w user_skills md :
  skill_gaps w user_skills [] md = [].
Proof.
  unfold skill_gaps. simpl job_skill_names.
  rewrite existing_skill_gaps_no_jobs. reflexivity.
Qed.

(** C8.  The coverage percentage of every result lies in [0, 100]; with no
    job requirement the call returns, without an error, coverage 100, match
    score 100, no gap and no recommendation. *)
Theorem coverage_and_empty_requirements w user_skills reqs md :
  (0 <= coverage_percentage (summary (analyze_gaps w user_skills reqs md)) <= 100)%Q
  /\ analyze_gaps w user_skills [] md
     = {| error := None;
          gaps := [];
          summary := {| total_gaps := 0;
                        high_priority_gaps := 0;
                        total_development_time := 0;
                        coverage_percentage := 100;
                        match_score := 100 |};
          recommendations := Some [];
          timeline := Some {| phases := []; total_duration := 0; critical_path := [] |} |}.
Proof.
  split.
  - unfold analyze_gaps.
    destruct (skill_gaps w user_skills reqs md) as [|h t] eqn:E.
    + rewrite (analyze_gaps_try_no_gap _ _ _ _ E). simpl. apply coverage_bounds.
    + rewrite analyze_gaps_try_some_gap by (rewrite E; discriminate).
      simpl. lra.
  - unfold analyze_gaps.
    rewrite (analyze_gaps_try_no_gap _ _ _ _ (skill_gaps_no_requirements w user_skills md)).
    reflexivity.
Qed.

(** ** The timeline *)

Lemma bands_partition gs :
  high_band gs ++ medium_band gs ++ low_band gs ≡ₚ gs.
Proof.
  unfold high_band, medium_band, low_band.
  induction gs as [|g gs IH]; [reflexivity|].
  rewrite !filter_cons.
  destruct (decide (0.8 <= priority g)%Q) as [Hh|Hh];
    destruct (decide (0.5 <= priority g /\ priority g < 0.8)%Q) as [[Hm1 Hm2]|Hm];
    destruct (decide (priority g < 0.5)%Q) as [Hl|Hl];
    try (exfalso; lra).
  - simpl. constructor. exact IH.
  - simpl. rewrite <- Permutation_middle. constructor. exact IH.
  - rewrite app_assoc, <- Permutation_middle, <- app_assoc. constructor. exact IH.
Qed.

Lemma priority_sorted_filter (P : Gap -> Prop) `{!forall g, Decision (P g)} gs :
  Spec.priority_sorted gs -> Spec.priority_sorted (filter P gs).
Proof.
  unfold Spec.priority_sorted. induction 1 as [|g gs Hs IH Hall].
  - constructor.
  - rewrite filter_cons. destruct (decide (P g)); [|exact IH].
    constructor; [exact IH|].
    rewrite Forall_forall in *. intros x [_ Hx]%list_elem_of_filter. auto.
Qed.

Lemma timeline_cases gs :
  let t := _create_development_timeline gs in
  map skills (phases t)
  = Spec.keep_nonempty [high_band gs; medium_band gs; low_band gs]
  /\ Forall (fun p => duration p = 6 /\ end_month p - start_month p = duration p)
            (phases t)
  /\ Spec.chained (phases t)
  /\ total_duration t = foldr Z.add 0 (map duration (phases t)).
Proof.
  unfold _create_development_timeline.
  destruct (high_band gs) as [|h hs];
    destruct (medium_band gs) as [|m ms];
    destruct (low_band gs) as [|l ls];
    simpl; repeat split; repeat constructor.
Qed.

(** C6.  The timeline of a gap list: the three bands are cut by the
    thresholds 0.8 and 0.5, together hold every gap once and keep the
    order of the list (so each band of a priority-sorted list is sorted);
    the non-empty bands become the phases, high, medium, low in that
    order; every phase lasts 6 months from its start to its end and ends
    where the next one starts; [total_duration] is the sum of the phase
    durations and [critical_path] the names of the high band in order. *)
Theorem timeline_structure gs :
  let t := _create_development_timeline gs in
  (forall g, g ∈ high_band gs <-> g ∈ gs /\ (0.8 <= priority g)%Q)
  /\ (forall g, g ∈ medium_band gs
                <-> g ∈ gs /\ (0.5 <= priority g)%Q /\ (priority g < 0.8)%Q)
  /\ (forall g, g ∈ low_band gs <-> g ∈ gs /\ (priority g < 0.5)%Q)
  /\ high_band gs ++ medium_band gs ++ low_band gs ≡ₚ gs
  /\ (high_band gs `sublist_of` gs
      /\ medium_band gs `sublist_of` gs
      /\ low_band gs `sublist_of` gs)
  /\ (Spec.priority_sorted gs ->
      Spec.priority_sorted (high_band gs)
      /\ Spec.priority_sorted (medium_band gs)
      /\ Spec.priority_sorted (low_band gs))
  /\ map skills (phases t)
     = Spec.keep_nonempty [high_band gs; medium_band gs; low_band gs]
  /\ Forall (fun p => duration p = 6 /\ end_month p - start_month p = duration p)
            (phases t)
  /\ Spec.chained (phases t)
  /\ total_duration t = foldr Z.add 0 (map duration (phases t))
  /\ critical_path t = map skill_name (high_band gs).
Proof.
  intros t.
  split; [|split; [|split]].
  - intros g. unfold high_band. rewrite list_elem_of_filter. tauto.
  - intros g. unfold medium_band. rewrite list_elem_of_filter. tauto.
  - intros g. unfold low_band. rewrite list_elem_of_filter. tauto.
  - split; [apply bands_partition|].
    split; [repeat split; apply sublist_filter|].
    split; [intros Hs; repeat split; apply priority_sorted_filter, Hs|].
    destruct (timeline_cases gs) as (Hphases & Hlen & Hchain & Htotal).
    repeat split; assumption.
Qed.

(** ** Matching of names *)

(** C7, counterexample.  "js" and "javascript" have one canonical form,
    yet a user at javascript level 5 has no gap against "JavaScript" and
    the same user under the name "js" has one. *)
Lemma synonyms_are_not_matched :
  normalize_skill_name "js" = normalize_skill_name "javascript"
  /\ skill_gaps Sample.quiet Sample.javascript5 ["JavaScript"] Sample.no_market = []
  /\ skill_gaps Sample.quiet Sample.js5 ["JavaScript"] Sample.no_market <> []
  /\ analyze_gaps Sample.quiet Sample.javascript5 ["JavaScript"] Sample.no_market
     <> analyze_gaps Sample.quiet Sample.js5 ["JavaScript"] Sample.no_market.
Proof. repeat split; vm_compute; discriminate. Qed.

Lemma user_skill_names_lower us us' :
  Forall2 Spec.same_lower_name us us' -> user_skill_names us = user_skill_names us'.
Proof.
  induction 1 as [|a b us us' [Hn _] _ IH]; simpl; [reflexivity|].
  rewrite Hn, IH. reflexivity.
Qed.

Lemma user_skill_levels_lower us us' :
  Forall2 Spec.same_lower_name us us' -> user_skill_levels us = user_skill_levels us'.
Proof.
  induction 1 as [|a b us us' [_ Hl] _ IH]; simpl; [reflexivity|].
  rewrite Hl, IH. reflexivity.
Qed.

Lemma scan_requirements_lower skill reqs reqs' :
  map PyStr.lower reqs = map PyStr.lower reqs' ->
  scan_requirements skill reqs = scan_requirements skill reqs'.
Proof.
  revert reqs'. induction reqs as [|r reqs IH]; intros [|r' reqs'] Heq;
    try discriminate; [reflexivity|].
  simpl in Heq. injection Heq as Hr Hrest.
  simpl. rewrite Hr, (IH reqs' Hrest). reflexivity.
Qed.

Lemma get_required_level_lower skill reqs reqs' md :
  map PyStr.lower reqs = map PyStr.lower reqs' ->
  _get_required_level skill reqs md = _get_required_level skill reqs' md.
Proof.
  intros Heq. unfold _get_required_level.
  rewrite Heq, (scan_requirements_lower skill reqs reqs' Heq). reflexivity.
Qed.

Lemma existing_skill_gaps_lower w reqs reqs' md jobs named_levels k :
  map PyStr.lower reqs = map PyStr.lower reqs' ->
  existing_skill_gaps w reqs md jobs named_levels k
  = existing_skill_gaps w reqs' md jobs named_levels k.
Proof.
  intros Heq. revert k.
  induction named_levels as [|[n lvl] rest IH]; intros k; simpl; [reflexivity|].
  rewrite (get_required_level_lower n reqs reqs' md Heq), !IH. reflexivity.
Qed.

Lemma missing_skill_gaps_lower w reqs reqs' md missing k :
  map PyStr.lower reqs = map PyStr.lower reqs' ->
  missing_skill_gaps w reqs md missing k = missing_skill_gaps w reqs' md missing k.
Proof.
  intros Heq. revert k.
  induction missing as [|n rest IH]; intros k; simpl; [reflexivity|].
  rewrite (get_required_level_lower n reqs reqs' md Heq), IH. reflexivity.
Qed.

Lemma skill_gaps_lower w us us' reqs reqs' md :
  Forall2 Spec.same_lower_name us us' ->
  map PyStr.lower reqs = map PyStr.lower reqs' ->
  skill_gaps w us reqs md = skill_gaps w us' reqs' md.
Proof.
  intros Hus Hreqs. unfold skill_gaps, job_skill_names.
  rewrite (user_skill_names_lower _ _ Hus), (user_skill_levels_lower _ _ Hus), Hreqs.
  rewrite (existing_skill_gaps_lower w reqs reqs' md _ _ _ Hreqs).
  destruct (existing_skill_gaps _ _ _ _ _ _) as [existing k].
  rewrite (missing_skill_gaps_lower w reqs reqs' md _ _ Hreqs). reflexivity.
Qed.

Lemma create_skill_vector_lower w us us' :
  Forall2 Spec.same_lower_name us us' ->
  _create_skill_vector w us = _create_skill_vector w us'.
Proof.
  unfold _create_skill_vector. generalize (replicate 100 0%Q).
  intros vec H. revert vec.
  induction H as [|a b us us' [Hn Hl] _ IH]; intros vec; simpl; [reflexivity|].
  rewrite Hn, Hl. apply IH.
Qed.

Lemma create_requirement_vector_lower w reqs reqs' :
  map PyStr.lower reqs = map PyStr.lower reqs' ->
  _create_requirement_vector w reqs = _create_requirement_vector w reqs'.
Proof.
  unfold _create_requirement_vector. generalize (replicate 100 0%Q).
  intros vec. revert vec reqs'.
  induction reqs as [|r reqs IH]; intros vec [|r' reqs'] Heq;
    try discriminate; [reflexivity|].
  simpl in Heq. injection Heq as Hr Hrest.
  simpl. rewrite Hr. apply IH, Hrest.
Qed.

Lemma calculate_match_score_lower w us us' reqs reqs' :
  Forall2 Spec.same_lower_name us us' ->
  map PyStr.lower reqs = map PyStr.lower reqs' ->
  _calculate_match_score w us reqs = _calculate_match_score w us' reqs'.
Proof.
  intros Hus Hreqs. unfold _calculate_match_score.
  rewrite (create_skill_vector_lower w us us' Hus),
          (create_requirement_vector_lower w reqs reqs' Hreqs).
  destruct reqs, reqs'; try discriminate; reflexivity.
Qed.

Lemma missing_skill_gaps_complete w reqs md missing k n :
  n ∈ missing ->
  exists g,
    g ∈ (missing_skill_gaps w reqs md missing k).1
    /\ skill_name g = n
    /\ current_level g = 0
    /\ is_missing g = Some true.
Proof.
  revert k. induction missing as [|m rest IH]; intros k Hin; [inversion Hin|].
  simpl. specialize (IH (S k)).
  destruct (missing_skill_gaps w reqs md rest (S k)) as [more k'].
  simpl in *. apply elem_of_cons in Hin as [-> | Hin].
  - eexists. split; [left|]. repeat split.
  - destruct (IH Hin) as (g & Hg & Hrest). exists g. split; [right; exact Hg | exact Hrest].
Qed.

(** Where a record of the gap list comes from: from a user skill of that
    name, without the flag, or from a requirement no user skill names, with
    the flag and level 0. *)
Lemma skill_gaps_origin w user_skills reqs md g :
  g ∈ skill_gaps w user_skills reqs md ->
  (is_missing g = None /\ skill_name g ∈ user_skill_names user_skills)
  \/ (is_missing g = Some true
      /\ current_level g = 0
      /\ skill_name g ∉ user_skill_names user_skills).
Proof.
  unfold skill_gaps.
  pose proof (existing_skill_gaps_elem w reqs md (job_skill_names reqs)
                (zip (user_skill_names user_skills) (user_skill_levels user_skills))
                0 g) as Hexisting.
  destruct (existing_skill_gaps _ _ _ _ _ _) as [existing k].
  pose proof (missing_skill_gaps_elem w reqs md
                (missing_skills (user_skill_names user_skills) (job_skill_names reqs))
                k g) as Hmissing.
  destruct (missing_skill_gaps _ _ _ _ _) as [added k'].
  rewrite elem_of_sort_by_priority, elem_of_app. intros [Hin | Hin].
  - destruct (Hexisting Hin) as (Hzip & _ & _ & _ & _ & Hflag).
    left. split; [exact Hflag|]. apply elem_of_zip_l in Hzip. exact Hzip.
  - destruct (Hmissing Hin) as (Hname & Hzero & _ & _ & Hflag).
    right. unfold missing_skills in Hname.
    apply list_elem_of_filter in Hname as [Hn _]. auto.
Qed.

Lemma skill_gaps_missing_record w user_skills reqs md req :
  req ∈ reqs ->
  PyStr.lower req ∉ user_skill_names user_skills ->
  exists g,
    g ∈ skill_gaps w user_skills reqs md
    /\ skill_name g = PyStr.lower req
    /\ current_level g = 0
    /\ is_missing g = Some true.
Proof.
  intros Hreq Hnot. unfold skill_gaps.
  destruct (existing_skill_gaps _ _ _ _ _ _) as [existing k].
  pose proof (missing_skill_gaps_complete w reqs md
                (missing_skills (user_skill_names user_skills) (job_skill_names reqs))
                k (PyStr.lower req)) as Hcomplete.
  destruct (missing_skill_gaps _ _ _ _ _) as [added k'].
  destruct Hcomplete as (g & Hg & Hrest).
  { unfold missing_skills. apply list_elem_of_filter. split; [exact Hnot|].
    unfold job_skill_names. apply list_elem_of_fmap. exists req. auto. }
  exists g. split; [|exact Hrest].
  apply elem_of_sort_by_priority, elem_of_app. right. exact Hg.
Qed.

(** C7 (amended).  Names are matched by their lower-cased text only (ASCII
    names; no synonym table is consulted).  Replacing user skill names and
    requirement strings by ones with the same lower-case form leaves the
    gap records, and the whole result, unchanged.  A requirement whose
    lower-cased text is the lower-cased name of no user skill is looked up
    at level 0: it gets a record flagged missing; and a record is flagged
    missing exactly when no user skill has its name. *)
Theorem lower_case_matching w us us' reqs reqs' md :
  Forall2 Spec.same_lower_name us us' ->
  map PyStr.lower reqs = map PyStr.lower reqs' ->
  Forall (fun skill => Facts.ascii_only (default "" (name skill))) us ->
  Forall Facts.ascii_only reqs ->
  skill_gaps w us reqs md = skill_gaps w us' reqs' md
  /\ analyze_gaps w us reqs md = analyze_gaps w us' reqs' md
  /\ (forall req, req ∈ reqs -> PyStr.lower req ∉ user_skill_names us ->
        exists g, g ∈ skill_gaps w us reqs md
                  /\ skill_name g = PyStr.lower req
                  /\ current_level g = 0
                  /\ is_missing g = Some true)
  /\ (forall g, g ∈ skill_gaps w us reqs md ->
        (is_missing g = Some true <-> skill_name g ∉ user_skill_names us)
        /\ (is_missing g = Some true -> current_level g = 0)).
Proof.
  intros Hus Hreqs _ _.
  pose proof (skill_gaps_lower w us us' reqs reqs' md Hus Hreqs) as Hgaps.
  split; [exact Hgaps|]. split.
  - unfold analyze_gaps, analyze_gaps_try, job_skill_names.
    rewrite Hgaps, (user_skill_names_lower _ _ Hus), Hreqs,
            (calculate_match_score_lower w us us' reqs reqs' Hus Hreqs).
    reflexivity.
  - split; [intros req; apply skill_gaps_missing_record|].
    intros g Hg.
    destruct (skill_gaps_origin _ _ _ _ _ Hg) as [[Hflag Hin] | (Hflag & Hzero & Hnot)];
      rewrite Hflag.
    + split; [split; [discriminate | contradiction] | discriminate].
    + split; [split; auto | auto].
Qed.

Lemma lower_case_matching_witness :
  skill_gaps Sample.quiet Sample.JavaScript5 ["JAVASCRIPT"] Sample.no_market
  = skill_gaps Sample.quiet Sample.javascript5 ["javascript"] Sample.no_market
  /\ analyze_gaps Sample.quiet Sample.JavaScript5 ["JAVASCRIPT"] Sample.no_market
     = analyze_gaps Sample.quiet Sample.javascript5 ["javascript"] Sample.no_market.
Proof.
  destruct (lower_case_matching Sample.quiet Sample.JavaScript5 Sample.javascript5
              ["JAVASCRIPT"] ["javascript"] Sample.no_market)
    as (Hgaps & Hresult & _).
  - repeat constructor.
  - reflexivity.
  - repeat constructor; vm_compute; lia.
  - repeat constructor; vm_compute; lia.
  - split; assumption.
Defined.

(** Two instances.  With every requirement met under another letter case
    the two results are the same result without error, at coverage 100;
    with a requirement no user skill names, the two gap lists are the same
    list, which holds a record at level 0 flagged missing. *)
Lemma lower_case_matching_instances :
  analyze_gaps Sample.quiet Sample.JavaScript5 ["JAVASCRIPT"] Sample.no_market
  = analyze_gaps Sample.quiet Sample.javascript5 ["javascript"] Sample.no_market
  /\ error (analyze_gaps Sample.quiet Sample.JavaScript5 ["JAVASCRIPT"] Sample.no_market)
     = None
  /\ (coverage_percentage
        (summary (analyze_gaps Sample.quiet Sample.JavaScript5 ["JAVASCRIPT"]
                    Sample.no_market)) == 100)%Q
  /\ skill_gaps Sample.quiet Sample.JavaScript5 ["JavaScript"; "SQL"] Sample.no_market
     = skill_gaps Sample.quiet Sample.javascript5 ["javascript"; "sql"] Sample.no_market
  /\ map (fun g => (skill_name g, current_level g, is_missing g))
         (skill_gaps Sample.quiet Sample.JavaScript5 ["JavaScript"; "SQL"]
            Sample.no_market)
     = [("sql", 0, Some true)].
Proof. repeat split; vm_compute; reflexivity. Qed.

(** * Further properties *)

(** ** The sort *)

Lemma insert_by_priority_sorted g l :
  Spec.priority_sorted l -> Spec.priority_sorted (insert_by_priority g l).
Proof.
  unfold Spec.priority_sorted. induction 1 as [|h t Hs IH Hall]; simpl.
  - repeat constructor.
  - destruct (decide (priority g < priority h)%Q) as [Hlt|Hge].
    + constructor; [exact IH|].
      rewrite insert_by_priority_perm. constructor; [lra | exact Hall].
    + constructor; [constructor; assumption|].
      constructor; [lra|].
      eapply Forall_impl; [exact Hall|]. intros x Hx. simpl in Hx. lra.
Qed.

Lemma sort_by_priority_sorted l : Spec.priority_sorted (sort_by_priority l).
Proof.
  induction l as [|g l IH]; simpl.
  - constructor.
  - apply insert_by_priority_sorted, IH.
Qed.

Lemma insert_by_priority_stable (p : Q) g l :
  filter (fun x => priority x == p)%Q (insert_by_priority g l)
  = filter (fun x => priority x == p)%Q (g :: l).
Proof.
  induction l as [|h t IH]; simpl; [reflexivity|].
  destruct (decide (priority g < priority h)%Q) as [Hlt|Hge]; [|reflexivity].
  rewrite (filter_cons _ h), IH, !filter_cons.
  destruct (decide (priority h == p)%Q) as [Hh|Hh];
    destruct (decide (priority g == p)%Q) as [Hg|Hg]; try reflexivity.
  exfalso. lra.
Qed.

(** X1.  The sort puts gaps in descending priority, keeps every gap, and leaves
    gaps of equal priority in the order they had. *)
Theorem sort_by_priority_stable_sort l :
  sort_by_priority l ≡ₚ l
  /\ Spec.priority_sorted (sort_by_priority l)
  /\ forall p : Q,
       filter (fun g => priority g == p)%Q (sort_by_priority l)
       = filter (fun g => priority g == p)%Q l.
Proof.
  split; [apply sort_by_priority_perm|].
  split; [apply sort_by_priority_sorted|].
  intros p. induction l as [|g l IH]; simpl; [reflexivity|].
  rewrite insert_by_priority_stable, !filter_cons, IH. reflexivity.
Qed.

Lemma insert_by_priority_head g l :
  Forall (fun b => (priority b <= priority g)%Q) l ->
  insert_by_priority g l = g :: l.
Proof.
  intros Hall. destruct l as [|h t]; simpl; [reflexivity|].
  inversion Hall as [|? ? Hh _]; subst.
  destruct (decide (priority g < priority h)%Q) as [Hlt|_]; [lra | reflexivity].
Qed.

Lemma sort_by_priority_sorted_id l :
  Spec.priority_sorted l -> sort_by_priority l = l.
Proof.
  unfold Spec.priority_sorted. induction 1 as [|g l Hs IH Hall]; simpl.
  - reflexivity.
  - rewrite IH. apply insert_by_priority_head, Hall.
Qed.

(** X2.  The gap list of [analyze_gaps] is in descending priority order, and the
    second sort, the one inside [_generate_gap_recommendations], leaves it
    as it is. *)
Theorem skill_gaps_sorted_once w user_skills reqs md :
  Spec.priority_sorted (skill_gaps w user_skills reqs md)
  /\ sort_by_priority (skill_gaps w user_skills reqs md)
     = skill_gaps w user_skills reqs md.
Proof.
  assert (Spec.priority_sorted (skill_gaps w user_skills reqs md)) as Hs.
  { unfold skill_gaps.
    destruct (existing_skill_gaps _ _ _ _ _ _) as [existing k].
    destruct (missing_skill_gaps _ _ _ _ _) as [added k'].
    apply sort_by_priority_sorted. }
  split; [exact Hs | apply sort_by_priority_sorted_id, Hs].
Qed.

(** ** Recommendations, returned or raised *)

Lemma build_recommendation_no_step md gap :
  Facts.no_step gap ->
  exists r,
    build_recommendation md gap = Py.Returns r
    /\ rec_skill_name r = skill_name gap
    /\ rec_priority r = priority gap
    /\ rec_current_level r = current_level gap
    /\ target_level r = required_level gap
    /\ milestones r = []
    /\ length (actions r) = 5%nat
    /\ length (resources r) = 4%nat.
Proof.
  intros Hle. unfold build_recommendation.
  rewrite (milestones_empty gap Hle). eexists. split; [reflexivity|].
  simpl. repeat split. unfold _get_skill_development_actions.
  destruct (get_is_missing gap); reflexivity.
Qed.

(** The loop over the selected gaps: it returns when none has a step left
    and raises [NameError] when one has. *)
Lemma for_each_build_recommendation md l :
  (Forall Facts.no_step l
   /\ exists recs,
        Py.for_each (build_recommendation md) l = Py.Returns recs
        /\ map rec_skill_name recs = map skill_name l
        /\ Forall (fun r => milestones r = []
                            /\ length (actions r) = 5%nat
                            /\ length (resources r) = 4%nat) recs)
  \/ (Exists (fun g => current_level g < required_level g) l
      /\ Py.for_each (build_recommendation md) l
         = Py.Raises (Py.NameError "skill_name")).
Proof.
  induction l as [|g l IH].
  - left. split; [constructor|]. exists []. repeat split. constructor.
  - destruct (decide (current_level g < required_level g)) as [Hlt|Hge].
    + right. split; [left; exact Hlt|].
      apply for_each_raises_head, build_recommendation_raises, Hlt.
    + assert (Facts.no_step g) as Hno by (unfold Facts.no_step; lia).
      destruct (build_recommendation_no_step md g Hno)
        as (r & Hr & Hname & _ & _ & _ & Hms & Hact & Hres).
      destruct IH as [(Hall & recs & Hrecs & Hnames & Hshape) | (Hex & Hraise)].
      * left. split; [constructor; assumption|].
        exists (r :: recs). simpl. rewrite Hr. simpl. rewrite Hrecs. simpl.
        repeat split; [rewrite Hname, Hnames; reflexivity|].
        constructor; auto.
      * right. split; [right; exact Hex|].
        simpl. rewrite Hr. simpl. rewrite Hraise. reflexivity.
Qed.

(** X4.  [_generate_gap_recommendations] raises exactly when one of the five
    gaps of highest priority has a level step left, and then it raises
    [NameError]; it raises nothing else. *)
Theorem recommendations_raise_iff gs md :
  (_generate_gap_recommendations gs md = Py.Raises (Py.NameError "skill_name")
   <-> Exists (fun g => current_level g < required_level g)
              (take 5 (sort_by_priority gs)))
  /\ (forall e, _generate_gap_recommendations gs md = Py.Raises e ->
                e = Py.NameError "skill_name").
Proof.
  unfold _generate_gap_recommendations.
  destruct (for_each_build_recommendation md (take 5 (sort_by_priority gs)))
    as [(Hall & recs & Hrecs & _) | (Hex & Hraise)].
  - rewrite Hrecs. split; [split|]; try discriminate.
    intros Hex. exfalso. rewrite Forall_forall in Hall.
    apply Exists_exists in Hex as (g & Hin & Hlt).
    specialize (Hall g Hin). unfold Facts.no_step in Hall. lia.
  - rewrite Hraise. split; [split; auto|].
    intros e [= <-]. reflexivity.
Qed.

(** ** When [analyze_gaps] succeeds *)

Lemma zip_names_levels user_skills :
  zip (user_skill_names user_skills) (user_skill_levels user_skills)
  = map (fun skill => (PyStr.lower (default "" (name skill)), default 1 (level skill)))
        user_skills.
Proof.
  induction user_skills as [|skill rest IH]; simpl; [reflexivity|].
  f_equal. exact IH.
Qed.

Lemma existing_skill_gaps_nil w reqs md jobs named_levels k :
  (existing_skill_gaps w reqs md jobs named_levels k).1 = []
  <-> Forall (fun nl => nl.1 ∈ jobs -> _get_required_level nl.1 reqs md <= nl.2)
             named_levels.
Proof.
  revert k. induction named_levels as [|[n lvl] rest IH]; intros k; simpl.
  - split; [constructor | reflexivity].
  - destruct (decide (n ∈ jobs)) as [Hj|Hj].
    + destruct (decide (lvl < _get_required_level n reqs md)) as [Hlt|Hge].
      * destruct (existing_skill_gaps w reqs md jobs rest (S k)) as [more k'].
        simpl. split; [discriminate|].
        intros Hall. inversion Hall as [|? ? Hhead _]; subst.
        simpl in Hhead. specialize (Hhead Hj). lia.
      * rewrite IH. split; intros Hall.
        -- constructor; [simpl; intros _; lia | exact Hall].
        -- inversion Hall; assumption.
    + rewrite IH. split; intros Hall.
      * constructor; [simpl; intros Hin; contradiction | exact Hall].
      * inversion Hall; assumption.
Qed.

Lemma missing_skill_gaps_nil w reqs md missing k :
  (missing_skill_gaps w reqs md missing k).1 = [] <-> missing = [].
Proof.
  destruct missing as [|n rest]; simpl; [tauto|].
  destruct (missing_skill_gaps w reqs md rest (S k)) as [more k'].
  simpl. split; discriminate.
Qed.

Lemma missing_skills_nil names jobs :
  missing_skills names jobs = [] <-> Forall (fun j => j ∈ names) jobs.
Proof.
  unfold missing_skills. induction jobs as [|j jobs IH]; simpl.
  - split; [constructor | reflexivity].
  - rewrite filter_cons. destruct (decide (j ∉ names)) as [Hn|Hin].
    + split; [discriminate|]. intros Hall. inversion Hall; subst. contradiction.
    + rewrite IH. split; intros Hall.
      * constructor; [|exact Hall].
        destruct (decide (j ∈ names)); [assumption | contradiction].
      * inversion Hall; assumption.
Qed.

Lemma skill_gaps_nil w user_skills reqs md :
  skill_gaps w user_skills reqs md = []
  <-> Facts.meets_every_requirement user_skills reqs md.
Proof.
  unfold skill_gaps, Facts.meets_every_requirement.
  pose proof (existing_skill_gaps_nil w reqs md (job_skill_names reqs)
                (zip (user_skill_names user_skills) (user_skill_levels user_skills)) 0)
    as Hexisting.
  destruct (existing_skill_gaps _ _ _ _ _ _) as [existing k]. simpl in Hexisting.
  pose proof (missing_skill_gaps_nil w reqs md
                (missing_skills (user_skill_names user_skills) (job_skill_names reqs)) k)
    as Hmissing.
  destruct (missing_skill_gaps _ _ _ _ _) as [added k']. simpl in Hmissing.
  rewrite zip_names_levels, Forall_fmap in Hexisting.
  rewrite missing_skills_nil in Hmissing. unfold job_skill_names in Hmissing at 1.
  rewrite Forall_fmap in Hmissing.
  split.
  - intros Hnil. apply sort_by_priority_nil_inv in Hnil.
    apply app_eq_nil in Hnil as [-> ->].
    split; [apply Hmissing | apply Hexisting]; reflexivity.
  - intros [Hreqs Hskills].
    apply Hmissing in Hreqs. apply Hexisting in Hskills. subst. reflexivity.
Qed.

(** X5.  For validated skill entries (levels from 1 to 5) and ASCII names
    and requirement strings, [analyze_gaps] returns without an error
    exactly when the user already lists every requirement (by lower-cased
    name) at the level asked or above; any unmet requirement turns the
    whole result into the error result. *)
Theorem analyze_gaps_succeeds_iff w user_skills reqs md :
  Forall Spec.validated user_skills ->
  Forall (fun skill => Facts.ascii_only (default "" (name skill))) user_skills ->
  Forall Facts.ascii_only reqs ->
  (error (analyze_gaps w user_skills reqs md) = None
   <-> Facts.meets_every_requirement user_skills reqs md).
Proof.
  intros _ _ _.
  rewrite <- (skill_gaps_nil w).
  destruct (analyze_gaps_dichotomy w user_skills reqs md) as [[Hnil Herr] | [Hne Herr]].
  - tauto.
  - rewrite Herr. simpl. split; [discriminate | contradiction].
Qed.

Lemma analyze_gaps_succeeds_iff_witness :
  error (analyze_gaps Sample.quiet [ {| name := Some "Python"; level := Some 4 |} ]
           ["python"] Sample.no_market) = None
  <-> Facts.meets_every_requirement [ {| name := Some "Python"; level := Some 4 |} ]
        ["python"] Sample.no_market.
Proof.
  apply analyze_gaps_succeeds_iff.
  - repeat constructor; vm_compute; discriminate.
  - repeat constructor; vm_compute; lia.
  - repeat constructor; vm_compute; lia.
Defined.

(** X6.  No call of [analyze_gaps] ever returns a gap: the gap list of the
    result is empty, its three counters are zero, and the recommendations
    and the timeline are absent or empty. *)
Theorem analyze_gaps_returns_no_gap w user_skills reqs md :
  let r := analyze_gaps w user_skills reqs md in
  gaps r = []
  /\ total_gaps (summary r) = 0
  /\ high_priority_gaps (summary r) = 0
  /\ total_development_time (summary r) = 0
  /\ (recommendations r = None \/ recommendations r = Some [])
  /\ (timeline r = None
      \/ timeline r = Some {| phases := []; total_duration := 0; critical_path := [] |}).
Proof.
  unfold analyze_gaps.
  destruct (skill_gaps w user_skills reqs md) as [|h t] eqn:E.
  - rewrite (analyze_gaps_try_no_gap _ _ _ _ E). simpl. repeat split; auto.
  - rewrite analyze_gaps_try_some_gap by (rewrite E; discriminate).
    simpl. repeat split; auto.
Qed.

(** ** Coverage and the missing skills *)

Lemma covered_plus_missing names jobs :
  (length (filter (fun skill => skill ∈ names) jobs)
   + length (missing_skills names jobs) = length jobs)%nat.
Proof.
  unfold missing_skills. induction jobs as [|j jobs IH]; [reflexivity|].
  rewrite !filter_cons.
  destruct (decide (j ∈ names)) as [Hin|Hn];
    destruct (decide (j ∉ names)) as [Hn'|Hin']; simpl; try lia; contradiction.
Qed.

(** X7.  The coverage percentage counts the requirements that are not missing:
    [coverage * n = 100 * (n - m)] for [n] requirements of which [m] are
    missing skills; so the coverage is 100 exactly when nothing is
    missing. *)
Theorem coverage_counts_missing names jobs :
  (_calculate_coverage_percentage names jobs * inject_Z (Z.of_nat (length jobs))
   == 100 * inject_Z (Z.of_nat (length jobs)
                      - Z.of_nat (length (missing_skills names jobs))))%Q
  /\ (_calculate_coverage_percentage names jobs == 100
      <-> missing_skills names jobs = [])%Q.
Proof.
  pose proof (covered_plus_missing names jobs) as Hsum.
  unfold _calculate_coverage_percentage.
  destruct jobs as [|j rest]; [split; [reflexivity | split; reflexivity]|].
  set (l := j :: rest) in *.
  set (c := length (filter _ l)) in *.
  set (m := length (missing_skills names l)) in *.
  assert (~ inject_Z (Z.of_nat (length l)) == 0)%Q as Hn.
  { change 0%Q with (inject_Z 0). rewrite inject_Z_injective. simpl. lia. }
  replace (Z.of_nat (length l) - Z.of_nat m) with (Z.of_nat c) by lia.
  split; [field; exact Hn|].
  split.
  - intros Hfull.
    assert (inject_Z (Z.of_nat c) / inject_Z (Z.of_nat (length l)) == 1)%Q as Hone.
    { assert (~ 100 == 0)%Q as H100 by lra.
      apply (proj1 (Qmult_inj_r _ 1 100 H100)). rewrite Hfull. reflexivity. }
    assert (inject_Z (Z.of_nat c) == inject_Z (Z.of_nat (length l)))%Q as Heq.
    { transitivity (inject_Z (Z.of_nat c) / inject_Z (Z.of_nat (length l))
                    * inject_Z (Z.of_nat (length l)))%Q.
      - field. exact Hn.
      - rewrite Hone. ring. }
    pose proof (proj1 (inject_Z_injective _ _) Heq) as Hz.
    assert (m = 0%nat) as Hm by lia. subst m.
    apply length_zero_iff_nil. exact Hm.
  - intros Hnil.
    assert (m = 0%nat) as Hm by (unfold m; rewrite Hnil; reflexivity).
    replace c with (length l) by lia. field. exact Hn.
Qed.

(** ** What every built gap record holds *)

Lemma existing_skill_gaps_values w reqs md jobs named_levels k g :
  g ∈ (existing_skill_gaps w reqs md jobs named_levels k).1 ->
  priority g = _calculate_priority (skill_name g) md
  /\ exists j, estimated_time g = _estimate_development_time (gap_size g) (normal w j).
Proof.
  revert k. induction named_levels as [|[n lvl] rest IH]; intros k; simpl.
  - intros H. inversion H.
  - destruct (decide (n ∈ jobs)); [|apply IH].
    destruct (decide (lvl < _)); [|apply IH].
    specialize (IH (S k)).
    destruct (existing_skill_gaps w reqs md jobs rest (S k)) as [more k'].
    simpl in *. intros [-> | Hin]%elem_of_cons; [|auto].
    simpl. split; [reflexivity | exists k; reflexivity].
Qed.

Lemma missing_skill_gaps_values w reqs md missing k g :
  g ∈ (missing_skill_gaps w reqs md missing k).1 ->
  priority g = _calculate_priority (skill_name g) md
  /\ exists j, estimated_time g = _estimate_development_time (gap_size g) (normal w j).
Proof.
  revert k. induction missing as [|n rest IH]; intros k; simpl.
  - intros H. inversion H.
  - specialize (IH (S k)).
    destruct (missing_skill_gaps w reqs md rest (S k)) as [more k'].
    simpl in *. intros [-> | Hin]%elem_of_cons; [|auto].
    simpl. split; [reflexivity | exists k; reflexivity].
Qed.

Lemma skill_gaps_values w user_skills reqs md g :
  g ∈ skill_gaps w user_skills reqs md ->
  priority g = _calculate_priority (skill_name g) md
  /\ exists j, estimated_time g = _estimate_development_time (gap_size g) (normal w j).
Proof.
  unfold skill_gaps.
  pose proof (existing_skill_gaps_values w reqs md (job_skill_names reqs)
                (zip (user_skill_names user_skills) (user_skill_levels user_skills))
                0 g) as Hexisting.
  destruct (existing_skill_gaps _ _ _ _ _ _) as [existing k].
  pose proof (missing_skill_gaps_values w reqs md
                (missing_skills (user_skill_names user_skills) (job_skill_names reqs))
                k g) as Hmissing.
  destruct (missing_skill_gaps _ _ _ _ _) as [added k'].
  rewrite elem_of_sort_by_priority, elem_of_app. intros [Hin | Hin]; auto.
Qed.

(** X8.  Every gap record the gap computation builds is named after a
    lower-cased requirement string, asks a level from 2 to 5 (never the
    market's level), has a size and an estimated time of at least 1, and
    carries the priority of its name, a number of the unit interval. *)
Theorem gap_record_ranges w user_skills reqs md g :
  g ∈ skill_gaps w user_skills reqs md ->
  skill_name g ∈ map PyStr.lower reqs
  /\ 2 <= required_level g <= 5
  /\ 1 <= gap_size g
  /\ 1 <= estimated_time g
  /\ priority g = _calculate_priority (skill_name g) md
  /\ (0 <= priority g <= 1)%Q.
Proof.
  intros Hin.
  destruct (skill_gaps_elem _ _ _ _ _ Hin) as (Hj & Hr & Hcase).
  destruct (skill_gaps_values _ _ _ _ _ Hin) as (Hp & j & Ht).
  pose proof (required_level_listed _ _ md Hj) as Hrange. rewrite <- Hr in Hrange.
  split; [exact Hj|]. split; [exact Hrange|].
  split; [destruct Hcase as [(_ & ? & ? & _) | (? & ? & _)]; lia|].
  split; [rewrite Ht; unfold _estimate_development_time; lia|].
  split; [exact Hp|]. rewrite Hp. apply min_max_bounds.
Qed.

Lemma gap_record_ranges_witness :
  skill_name Sample.python_gap ∈ map PyStr.lower Sample.python_sql
  /\ 2 <= required_level Sample.python_gap <= 5
  /\ 1 <= gap_size Sample.python_gap
  /\ 1 <= estimated_time Sample.python_gap
  /\ priority Sample.python_gap
     = _calculate_priority (skill_name Sample.python_gap) Sample.no_market
  /\ (0 <= priority Sample.python_gap <= 1)%Q.
Proof.
  apply (gap_record_ranges Sample.quiet Sample.python2 Sample.python_sql).
  vm_compute. left.
Defined.

(** ** The time estimate *)

(** X9.  With the same jitter, a larger gap never gets a shorter estimate. *)
Theorem estimate_monotone gap_size gap_size' variance :
  gap_size <= gap_size' ->
  _estimate_development_time gap_size variance
  <= _estimate_development_time gap_size' variance.
Proof.
  intros Hle. unfold _estimate_development_time.
  rewrite !int_of_float_scaled.
  apply Z.max_le_compat_l, Z.quot_le_mono; [lia|].
  apply Z.add_le_mono_r, Z.mul_le_mono_nonneg_r; lia.
Qed.

Lemma estimate_monotone_witness :
  _estimate_development_time 2 (1 # 3) <= _estimate_development_time 3 (1 # 3).
Proof. apply estimate_monotone. lia. Defined.

(** X10.  Without jitter the estimate is between 2 and 3 months per level of the
    gap, as the comment in the code says. *)
Theorem estimate_two_to_three_months gap_size :
  1 <= gap_size ->
  2 * gap_size <= _estimate_development_time gap_size 0 <= 3 * gap_size.
Proof.
  intros Hpos. unfold _estimate_development_time.
  rewrite int_of_float_scaled.
  change (Qden 0) with 1%positive. change (Qnum 0) with 0.
  change (Z.pos (10 * 1)) with 10.
  rewrite Z.quot_div_nonneg by lia.
  pose proof (Z.div_mod (gap_size * 25 * 1 + 0 * 10) 10 ltac:(lia)) as Hdm.
  pose proof (Z.mod_pos_bound (gap_size * 25 * 1 + 0 * 10) 10 ltac:(lia)) as Hm.
  lia.
Qed.

Lemma estimate_two_to_three_months_witness :
  2 * 3 <= _estimate_development_time 3 0 <= 3 * 3.
Proof. apply estimate_two_to_three_months. lia. Defined.

(** ** The default priority *)

(** X12.  A skill the market data does not mention gets priority 0.75, which is
    in the medium band. *)
Theorem priority_default skill md :
  default ∅ (demand md) !! skill = None ->
  default ∅ (salary_impact md) !! skill = None ->
  (_calculate_priority skill md == 0.75)%Q
  /\ (0.5 <= _calculate_priority skill md < 0.8)%Q.
Proof.
  intros Hd Hs.
  assert (_calculate_priority skill md == 0.75)%Q as Heq.
  { unfold _calculate_priority, market_demand, market_salary_impact.
    rewrite Hd, Hs. reflexivity. }
  split; [exact Heq|]. rewrite Heq. split; [discriminate | reflexivity].
Qed.

Lemma priority_default_witness :
  (_calculate_priority "rust" Sample.sql_market == 0.75)%Q
  /\ (0.5 <= _calculate_priority "rust" Sample.sql_market < 0.8)%Q.
Proof. apply priority_default; reflexivity. Defined.

(** ** Phases *)

Lemma keep_nonempty_concat (bands : list (list Gap)) :
  concat (Spec.keep_nonempty bands) = concat bands.
Proof.
  induction bands as [|b bands IH]; [reflexivity|].
  destruct b; simpl; rewrite IH; reflexivity.
Qed.

(** X13.  A timeline has at most three phases, each with at least one gap; it
    lasts six months per phase; every gap of the list is scheduled in
    exactly one phase; and the first phase, if there is one, starts at
    month 0, there being none only for the empty gap list. *)
Theorem timeline_phase_count gs :
  let t := _create_development_timeline gs in
  (length (phases t) <= 3)%nat
  /\ total_duration t = 6 * Z.of_nat (length (phases t))
  /\ Forall (fun p => skills p <> []) (phases t)
  /\ concat (map skills (phases t)) ≡ₚ gs
  /\ match phases t with
     | [] => gs = []
     | p :: _ => start_month p = 0
     end.
Proof.
  intros t.
  assert (concat (map skills (phases t)) ≡ₚ gs) as Hperm.
  { destruct (timeline_cases gs) as (Hphases & _). fold t in Hphases.
    rewrite Hphases, keep_nonempty_concat. simpl. rewrite app_nil_r.
    apply bands_partition. }
  revert Hperm. subst t. unfold _create_development_timeline.
  destruct (high_band gs) as [|h hs];
    destruct (medium_band gs) as [|m ms];
    destruct (low_band gs) as [|l ls];
    simpl; intros Hperm; repeat split;
    try lia; try (repeat constructor; discriminate); try exact Hperm.
  symmetry. apply Permutation_nil_l. exact Hperm.
Qed.

(** ** The two hashed vectors *)

Lemma slot_in_range w text : (Facts.slot w text < 100)%nat.
Proof.
  unfold Facts.slot.
  pose proof (Z.mod_pos_bound (hash w text) 100 ltac:(lia)). lia.
Qed.

Lemma create_requirement_vector_snoc w reqs req :
  _create_requirement_vector w (reqs ++ [req])
  = <[Facts.slot w (PyStr.lower req) := 1%Q]> (_create_requirement_vector w reqs).
Proof. unfold _create_requirement_vector. rewrite foldl_app. reflexivity. Qed.

Lemma create_skill_vector_snoc w user_skills skill :
  _create_skill_vector w (user_skills ++ [skill])
  = <[Facts.slot w (PyStr.lower (default "" (name skill)))
      := (inject_Z (default 1%Z (level skill)) / 5)%Q]>
      (_create_skill_vector w user_skills).
Proof. unfold _create_skill_vector. rewrite foldl_app. reflexivity. Qed.

Lemma create_requirement_vector_length w reqs :
  length (_create_requirement_vector w reqs) = 100%nat.
Proof.
  induction reqs as [|req reqs IH] using rev_ind; [reflexivity|].
  rewrite create_requirement_vector_snoc, length_insert. exact IH.
Qed.

Lemma create_skill_vector_length w user_skills :
  length (_create_skill_vector w user_skills) = 100%nat.
Proof.
  induction user_skills as [|skill rest IH] using rev_ind; [reflexivity|].
  rewrite create_skill_vector_snoc, length_insert. exact IH.
Qed.

(** X14.  The requirement vector always has 100 entries; the entry at index [i]
    is 1 when some requirement hashes to [i] and 0 otherwise, so every
    index written is inside the vector. *)
Theorem requirement_vector_marks w reqs :
  length (_create_requirement_vector w reqs) = 100%nat
  /\ forall i, (i < 100)%nat ->
       (_create_requirement_vector w reqs !! i = Some 1%Q
        /\ exists req, req ∈ reqs /\ i = Facts.slot w (PyStr.lower req))
       \/ (_create_requirement_vector w reqs !! i = Some 0%Q
           /\ forall req, req ∈ reqs -> i <> Facts.slot w (PyStr.lower req)).
Proof.
  split; [apply create_requirement_vector_length|].
  induction reqs as [|req reqs IH] using rev_ind; intros i Hi.
  - right. split.
    + change (_create_requirement_vector w []) with (replicate 100 0%Q).
      apply lookup_replicate_2. exact Hi.
    + intros req Hin. inversion Hin.
  - rewrite create_requirement_vector_snoc.
    destruct (decide (i = Facts.slot w (PyStr.lower req))) as [->|Hne].
    + left. split.
      * apply list_lookup_insert_eq.
        rewrite create_requirement_vector_length. apply slot_in_range.
      * exists req. split; [|reflexivity]. apply elem_of_app. right. left.
    + rewrite list_lookup_insert_ne by auto.
      destruct (IH i Hi) as [(Hone & r & Hin & Hr) | (Hzero & Hnone)].
      * left. split; [exact Hone|]. exists r. split; [|exact Hr].
        apply elem_of_app. left. exact Hin.
      * right. split; [exact Hzero|].
        intros r [Hin | Hin]%elem_of_app; [auto|].
        apply list_elem_of_singleton in Hin. subst r. exact Hne.
Qed.

Lemma requirement_vector_marks_witness :
  (_create_requirement_vector Sample.quiet Sample.python_sql !! 0%nat = Some 1%Q
   /\ exists req, req ∈ Sample.python_sql
                  /\ 0%nat = Facts.slot Sample.quiet (PyStr.lower req))
  \/ (_create_requirement_vector Sample.quiet Sample.python_sql !! 0%nat = Some 0%Q
      /\ forall req, req ∈ Sample.python_sql ->
                     0%nat <> Facts.slot Sample.quiet (PyStr.lower req)).
Proof.
  apply (proj2 (requirement_vector_marks Sample.quiet Sample.python_sql) 0%nat).
  lia.
Defined.

(** X15.  The skill vector always has 100 entries, and a later skill overwrites
    an earlier one that hashes to the same index: after the last skill the
    entry at its index is its level divided by 5, and the other entries
    are as they were before it. *)
Theorem skill_vector_last_write w user_skills skill :
  let i := Facts.slot w (PyStr.lower (default "" (name skill))) in
  length (_create_skill_vector w (user_skills ++ [skill])) = 100%nat
  /\ _create_skill_vector w (user_skills ++ [skill]) !! i
     = Some (inject_Z (default 1%Z (level skill)) / 5)%Q
  /\ forall j, j <> i ->
       _create_skill_vector w (user_skills ++ [skill]) !! j
       = _create_skill_vector w user_skills !! j.
Proof.
  intros i. split; [apply create_skill_vector_length|].
  rewrite create_skill_vector_snoc. split.
  - apply list_lookup_insert_eq.
    rewrite create_skill_vector_length. apply slot_in_range.
  - intros j Hne. apply list_lookup_insert_ne. auto.
Qed.

(** ** [validate_skills_data] *)

Lemma and_iff_both (A A' B B' : Prop) :
  (A <-> A') -> (B <-> B') -> (A /\ B <-> A' /\ B').
Proof. tauto. Qed.

Lemma skill_entry_errors_nil i skill :
  skill_entry_errors i skill = [] <-> Facts.entry_ok skill.
Proof.
  unfold skill_entry_errors, Facts.entry_ok.
  assert (forall (a b c : list string),
            a ++ b ++ c = [] <-> a = [] /\ b = [] /\ c = []) as Happ.
  { intros a b c. split.
    - intros [-> [-> ->]%app_eq_nil]%app_eq_nil. auto.
    - intros (-> & -> & ->). reflexivity. }
  rewrite Happ. clear Happ.
  apply and_iff_both; [|apply and_iff_both].
  - destruct (entry_name skill) as [n|]; split; intros H.
    + eauto.
    + reflexivity.
    + discriminate H.
    + destruct H as [? H]. discriminate H.
  - destruct (entry_level skill) as [lvl|].
    + destruct (decide (1 <= lvl <= 5)) as [Hok|Hbad]; split; intros H.
      * intros ? [= <-]. exact Hok.
      * reflexivity.
      * discriminate H.
      * exfalso. apply Hbad, H. reflexivity.
    + split; intros H; [intros ? Hnone; discriminate Hnone | reflexivity].
  - destruct (entry_experience skill) as [years|].
    + destruct (decide (years < 0)) as [Hneg|Hok]; split; intros H.
      * discriminate H.
      * specialize (H years eq_refl). lia.
      * intros ? [= <-]. lia.
      * reflexivity.
    + split; intros H; [intros ? Hnone; discriminate Hnone | reflexivity].
Qed.

Lemma validate_skills_from_nil i skills_data :
  validate_skills_from i skills_data = [] <-> Forall Facts.entry_ok skills_data.
Proof.
  revert i. induction skills_data as [|skill rest IH]; intros i; simpl.
  - split; [constructor | reflexivity].
  - split.
    + intros [Hhead Htail]%app_eq_nil. constructor.
      * apply (skill_entry_errors_nil i), Hhead.
      * apply (IH (S i)), Htail.
    + intros Hall. inversion Hall as [|? ? Hhead Htail]; subst.
      apply (skill_entry_errors_nil i) in Hhead. apply (IH (S i)) in Htail.
      rewrite Hhead, Htail. reflexivity.
Qed.

Lemma skill_entry_errors_length i skill :
  (length (skill_entry_errors i skill) <= 3)%nat.
Proof.
  unfold skill_entry_errors. rewrite !length_app.
  destruct (entry_name skill), (entry_level skill), (entry_experience skill);
    repeat match goal with
           | |- context [decide ?P] => destruct (decide P)
           end; simpl; lia.
Qed.

Lemma validate_skills_from_length i skills_data :
  (length (validate_skills_from i skills_data) <= 3 * length skills_data)%nat.
Proof.
  revert i. induction skills_data as [|skill rest IH]; intros i; simpl; [lia|].
  rewrite length_app.
  pose proof (skill_entry_errors_length i skill). specialize (IH (S i)). lia.
Qed.

(** X16.  The validator accepts a list exactly when every entry has a name, a
    level (if any) from 1 to 5 and an experience (if any) that is not
    negative; it accepts exactly when it reports no message, and it reports
    at most three messages per entry. *)
Theorem validate_skills_data_accepts skills_data :
  ((validate_skills_data skills_data).1 = true <-> Forall Facts.entry_ok skills_data)
  /\ ((validate_skills_data skills_data).1 = true
      <-> (validate_skills_data skills_data).2 = [])
  /\ (length (validate_skills_data skills_data).2 <= 3 * length skills_data)%nat.
Proof.
  unfold validate_skills_data. simpl.
  assert (Nat.eqb (length (validate_skills_from 0 skills_data)) 0 = true
          <-> validate_skills_from 0 skills_data = []) as Hnil.
  { rewrite Nat.eqb_eq. apply length_zero_iff_nil. }
  split; [|split].
  - rewrite Hnil. apply validate_skills_from_nil.
  - exact Hnil.
  - apply validate_skills_from_length.
Qed.

(** X17.  Skill entries the validator accepts meet the validation contract the
    gap analysis assumes: each has a name and a level from 1 to 5 (level 1
    when it has none). *)
Theorem accepted_skills_are_validated skills_data :
  (validate_skills_data skills_data).1 = true ->
  Forall Spec.validated (map to_user_skill skills_data)
  /\ Forall (fun skill => is_Some (name skill)) (map to_user_skill skills_data).
Proof.
  unfold validate_skills_data. simpl. rewrite Nat.eqb_eq, length_zero_iff_nil.
  rewrite validate_skills_from_nil, !Forall_fmap. intros Hall.
  split; (eapply Forall_impl; [exact Hall|]);
    intros skill (Hname & Hlevel & _); simpl; [|exact Hname].
  unfold Spec.validated. simpl.
  destruct (entry_level skill) as [lvl|]; simpl; [apply Hlevel; reflexivity | lia].
Qed.

Lemma accepted_skills_are_validated_witness :
  Forall Spec.validated (map to_user_skill [Facts.good_entry])
  /\ Forall (fun skill => is_Some (name skill)) (map to_user_skill [Facts.good_entry]).
Proof. apply accepted_skills_are_validated. reflexivity. Defined.

(** ** [validate_user_data] *)

(** X18.  User data is accepted exactly when it has the three required fields
    and its email contains an at sign; a missing email is reported as
    missing and never as badly formatted. *)
Theorem validate_user_data_accepts (user_data : gmap string string) :
  ((validate_user_data user_data).1 = true
   <-> is_Some (user_data !! "firstName")
       /\ is_Some (user_data !! "lastName")
       /\ exists address, user_data !! "email" = Some address
                          /\ PyStr.contains "@" address = true)
  /\ ("Invalid email format" ∈ (validate_user_data user_data).2
      -> "Missing required field: email" ∉ (validate_user_data user_data).2).
Proof.
  unfold validate_user_data, required_fields. simpl.
  destruct (user_data !! "firstName") as [first|];
    destruct (user_data !! "lastName") as [last|];
    destruct (user_data !! "email") as [address|]; simpl;
    try destruct (PyStr.contains "@" address) eqn:Hat; simpl;
    (split;
     [ split;
       [ intros H; try discriminate H; repeat split; eauto
       | intros (H1 & H2 & a & Ha & Hc);
         try (destruct H1 as [? [=]]); try (destruct H2 as [? [=]]);
         try discriminate Ha; try (injection Ha as <-; congruence);
         reflexivity ]
     | intros Hin Hmiss;
       repeat (apply elem_of_cons in Hmiss as [Hmiss | Hmiss];
               [discriminate Hmiss|]);
       try (inversion Hmiss; fail);
       repeat (apply elem_of_cons in Hin as [Hin | Hin];
               [discriminate Hin|]);
       inversion Hin ]).
Qed.

(** ** [normalize_skill_name] *)

Lemma lower_char_facts (c : ascii) :
  PyStr.lower_char (PyStr.lower_char c) = PyStr.lower_char c
  /\ PyStr.upper_char (PyStr.lower_char c) = PyStr.upper_char c
  /\ PyStr.is_cased (PyStr.lower_char c) = PyStr.is_cased c.
Proof.
  destruct c as [[] [] [] [] [] [] [] []]; vm_compute; repeat split.
Qed.

Lemma upper_char_facts (c : ascii) :
  PyStr.upper_char (PyStr.upper_char c) = PyStr.upper_char c
  /\ PyStr.lower_char (PyStr.upper_char c) = PyStr.lower_char c
  /\ PyStr.is_cased (PyStr.upper_char c) = PyStr.is_cased c.
Proof.
  destruct c as [[] [] [] [] [] [] [] []]; vm_compute; repeat split.
Qed.

Lemma lower_idempotent (s : string) : PyStr.lower (PyStr.lower s) = PyStr.lower s.
Proof.
  induction s as [|c s IH]; simpl; [reflexivity|].
  rewrite IH, (proj1 (lower_char_facts c)). reflexivity.
Qed.

Lemma title_from_lower (prev_cased : bool) (s : string) :
  PyStr.title_from prev_cased (PyStr.lower s) = PyStr.title_from prev_cased s.
Proof.
  revert prev_cased. induction s as [|c s IH]; intros prev_cased; simpl; [reflexivity|].
  destruct (lower_char_facts c) as (Hl & Hu & Hc).
  rewrite Hc, IH. destruct prev_cased; rewrite ?Hl, ?Hu; reflexivity.
Qed.

Lemma lower_title_from (prev_cased : bool) (s : string) :
  PyStr.lower (PyStr.title_from prev_cased s) = PyStr.lower s.
Proof.
  revert prev_cased. induction s as [|c s IH]; intros prev_cased; simpl; [reflexivity|].
  rewrite IH. destruct prev_cased.
  - rewrite (proj1 (lower_char_facts c)). reflexivity.
  - rewrite (proj1 (proj2 (upper_char_facts c))). reflexivity.
Qed.

Lemma title_from_idempotent (prev_cased : bool) (s : string) :
  PyStr.title_from prev_cased (PyStr.title_from prev_cased s)
  = PyStr.title_from prev_cased s.
Proof.
  revert prev_cased. induction s as [|c s IH]; intros prev_cased; simpl; [reflexivity|].
  destruct (lower_char_facts c) as (Hl & _ & Hcl).
  destruct (upper_char_facts c) as (Hu & _ & Hcu).
  destruct prev_cased; rewrite ?Hl, ?Hu, ?Hcl, ?Hcu, IH; reflexivity.
Qed.

(** The mapped names are fixed points of the normaliser. *)
Lemma skill_mapping_values_fixed key value :
  skill_mapping !! key = Some value -> normalize_skill_name value = value.
Proof.
  unfold skill_mapping. intros Hlook.
  apply elem_of_list_to_map_2 in Hlook.
  repeat (apply elem_of_cons in Hlook as [[= -> ->] | Hlook];
          [vm_compute; reflexivity|]).
  inversion Hlook.
Qed.

(** X19.  Normalising twice is normalising once. *)
Theorem normalize_skill_name_idempotent (skill : string) :
  normalize_skill_name (normalize_skill_name skill) = normalize_skill_name skill.
Proof.
  destruct (skill_mapping !! PyStr.strip (PyStr.lower skill)) as [value|] eqn:Hlook.
  - assert (normalize_skill_name skill = value) as ->
      by (unfold normalize_skill_name; rewrite Hlook; reflexivity).
    apply (skill_mapping_values_fixed _ _ Hlook).
  - assert (normalize_skill_name skill = PyStr.title skill) as ->
      by (unfold normalize_skill_name; rewrite Hlook; reflexivity).
    unfold normalize_skill_name, PyStr.title.
    rewrite lower_title_from, Hlook. simpl.
    apply title_from_idempotent.
Qed.

(** X20.  The normaliser does not look at letter case: two names with the same
    lower-case form have the same canonical name. *)
Theorem normalize_skill_name_ignores_case (skill skill' : string) :
  PyStr.lower skill = PyStr.lower skill' ->
  normalize_skill_name skill = normalize_skill_name skill'.
Proof.
  intros Heq. unfold normalize_skill_name, PyStr.title.
  rewrite <- (title_from_lower false skill), <- (title_from_lower false skill'), Heq.
  reflexivity.
Qed.

Lemma normalize_skill_name_ignores_case_witness :
  normalize_skill_name "Rust LANG" = normalize_skill_name "rUST lang".
Proof. apply normalize_skill_name_ignores_case. reflexivity. Defined.

(** ** The generated texts *)

Lemma prefix_append (s rest : string) : String.prefix s (s +:+ rest) = true.
Proof.
  induction s as [|c s IH]; [destruct rest; reflexivity|].
  change (String c s +:+ rest) with (String c (s +:+ rest)). simpl.
  destruct (Ascii.ascii_dec c c); [exact IH | contradiction].
Qed.

Lemma contains_of_prefix (needle hay : string) :
  String.prefix needle hay = true -> PyStr.contains needle hay = true.
Proof.
  intros H. destruct hay as [|c hay].
  - change (String.prefix needle "" || false = true). rewrite H. reflexivity.
  - change (String.prefix needle (String c hay) || PyStr.contains needle hay = true).
    rewrite H. reflexivity.
Qed.

Lemma contains_append (needle before after : string) :
  PyStr.contains needle (before +:+ needle +:+ after) = true.
Proof.
  induction before as [|c before IH].
  - change ("" +:+ needle +:+ after) with (needle +:+ after).
    apply contains_of_prefix, prefix_append.
  - change (String c before +:+ needle +:+ after)
      with (String c (before +:+ needle +:+ after)).
    simpl PyStr.contains. rewrite IH. apply orb_true_r.
Qed.

Lemma contains_append_end (needle before : string) :
  PyStr.contains needle (before +:+ needle) = true.
Proof.
  pose proof (contains_append needle before "") as H.
  assert (forall s : string, s +:+ "" = s) as Hnil.
  { induction s as [|c s IH]; [reflexivity|].
    change (String c s +:+ "") with (String c (s +:+ "")). rewrite IH. reflexivity. }
  rewrite Hnil in H. exact H.
Qed.

Lemma contains_append_start (needle after : string) :
  PyStr.contains needle (needle +:+ after) = true.
Proof. apply (contains_append needle "" after). Qed.

(** X21.  A recommendation always lists five actions and four resources, and
    every action text and every resource name mentions the skill. *)
Theorem recommendation_texts_mention_skill skill gap md :
  length (_get_skill_development_actions skill gap) = 5%nat
  /\ Forall (fun text => PyStr.contains skill text = true)
            (_get_skill_development_actions skill gap)
  /\ length (_get_learning_resources skill md) = 4%nat
  /\ Forall (fun r => PyStr.contains skill (res_name r) = true)
            (_get_learning_resources skill md).
Proof.
  unfold _get_skill_development_actions, _get_learning_resources.
  destruct (get_is_missing gap); simpl;
    repeat split;
    repeat (constructor;
            [first [ apply contains_append | apply contains_append_end
                   | apply contains_append_start ] |]);
    constructor.
Qed.

(** X22.  The rubric has three criteria for each level from 1 to 5, each naming
    the skill, and none for any other level. *)
Theorem level_criteria_rubric skill level :
  (1 <= level <= 5 ->
   length (_get_level_criteria skill level) = 3%nat
   /\ Forall (fun text => PyStr.contains skill text = true)
             (_get_level_criteria skill level))
  /\ (~ 1 <= level <= 5 -> _get_level_criteria skill level = []).
Proof.
  unfold _get_level_criteria.
  repeat match goal with
         | |- context [decide ?P] => destruct (decide P); try subst level
         end;
    (split; [intros Hin | intros Hout]; try lia; try reflexivity);
    (split; [reflexivity|]);
    repeat (constructor;
            [first [ apply contains_append | apply contains_append_end
                   | apply contains_append_start ] |]);
    constructor.
Qed.

(** ** How many gaps, and which draws *)

Lemma existing_skill_gaps_draws w reqs md jobs named_levels k :
  let r := existing_skill_gaps w reqs md jobs named_levels k in
  (length r.1 <= length named_levels)%nat
  /\ r.2 = (k + length r.1)%nat
  /\ map estimated_time r.1
     = imap (fun i g => _estimate_development_time (gap_size g) (normal w (k + i))) r.1.
Proof.
  revert k. induction named_levels as [|[n lvl] rest IH]; intros k; simpl.
  - repeat split; lia.
  - assert (forall k', let r := existing_skill_gaps w reqs md jobs rest k' in
                       (length r.1 <= S (length rest))%nat
                       /\ r.2 = (k' + length r.1)%nat
                       /\ map estimated_time r.1
                          = imap (fun i g => _estimate_development_time (gap_size g)
                                               (normal w (k' + i))) r.1) as Hskip.
    { intros k'. destruct (IH k') as (? & ? & ?). repeat split; auto; lia. }
    destruct (decide (n ∈ jobs)); [|apply Hskip].
    destruct (decide (lvl < _)); [|apply Hskip].
    destruct (IH (S k)) as (Hlen & Hcount & Htimes).
    destruct (existing_skill_gaps w reqs md jobs rest (S k)) as [more k'].
    simpl in *. split; [lia|]. split; [lia|].
    rewrite Nat.add_0_r. f_equal. rewrite Htimes.
    apply imap_ext. intros i g _. simpl. do 2 f_equal. lia.
Qed.

Lemma missing_skill_gaps_draws w reqs md missing k :
  let r := missing_skill_gaps w reqs md missing k in
  length r.1 = length missing
  /\ r.2 = (k + length r.1)%nat
  /\ map estimated_time r.1
     = imap (fun i g => _estimate_development_time (gap_size g) (normal w (k + i))) r.1.
Proof.
  revert k. induction missing as [|n rest IH]; intros k; simpl.
  - repeat split; lia.
  - destruct (IH (S k)) as (Hlen & Hcount & Htimes).
    destruct (missing_skill_gaps w reqs md rest (S k)) as [more k'].
    simpl in *. split; [lia|]. split; [lia|].
    rewrite Nat.add_0_r. f_equal. rewrite Htimes.
    apply imap_ext. intros i g _. simpl. do 2 f_equal. lia.
Qed.

(** X23.  The gap list is the sorted form of a build list with one record per
    missing requirement string and at most one per user skill; the record
    at position [i] of the build list takes its estimate from draw number
    [i] of the noise, so each draw is used once. *)
Theorem skill_gaps_count_and_draws w user_skills reqs md :
  exists built,
    skill_gaps w user_skills reqs md = sort_by_priority built
    /\ (length (missing_skills (user_skill_names user_skills) (job_skill_names reqs))
        <= length built
        <= length user_skills
           + length (missing_skills (user_skill_names user_skills)
                                    (job_skill_names reqs)))%nat
    /\ map estimated_time built
       = imap (fun i g => _estimate_development_time (gap_size g) (normal w i)) built.
Proof.
  unfold skill_gaps.
  pose proof (existing_skill_gaps_draws w reqs md (job_skill_names reqs)
                (zip (user_skill_names user_skills) (user_skill_levels user_skills)) 0)
    as (Hlen1 & Hk & Ht1).
  destruct (existing_skill_gaps _ _ _ _ _ _) as [existing k]. simpl in *.
  pose proof (missing_skill_gaps_draws w reqs md
                (missing_skills (user_skill_names user_skills) (job_skill_names reqs)) k)
    as (Hlen2 & _ & Ht2).
  destruct (missing_skill_gaps _ _ _ _ _) as [added k']. simpl in *.
  exists (existing ++ added). split; [reflexivity|]. split.
  - rewrite length_app, Hlen2.
    rewrite zip_names_levels, length_map in Hlen1. lia.
  - rewrite map_app, imap_app, Ht1, Ht2. subst k. reflexivity.
Qed.

(** ** The timeline of a sorted list *)

Lemma filter_none {A} (P : A -> Prop) `{!forall x, Decision (P x)} (l : list A) :
  Forall (fun x => ~ P x) l -> filter P l = [].
Proof.
  induction 1 as [|x l Hx _ IH]; [reflexivity|].
  rewrite filter_cons. destruct (decide (P x)); [contradiction | exact IH].
Qed.

Lemma bands_of_sorted gs :
  Spec.priority_sorted gs ->
  high_band gs ++ medium_band gs ++ low_band gs = gs.
Proof.
  unfold Spec.priority_sorted, high_band, medium_band, low_band.
  induction 1 as [|g gs Hs IH Hall]; [reflexivity|].
  rewrite !filter_cons.
  destruct (decide (0.8 <= priority g)%Q) as [Hh|Hh];
    destruct (decide (0.5 <= priority g /\ priority g < 0.8)%Q) as [[Hm1 Hm2]|Hm];
    destruct (decide (priority g < 0.5)%Q) as [Hl|Hl];
    try (exfalso; lra).
  - simpl. f_equal. exact IH.
  - assert (filter (fun gap => (0.8 <= priority gap)%Q) gs = []) as Hnone.
    { apply filter_none. eapply Forall_impl; [exact Hall|].
      intros x Hx. simpl in Hx. lra. }
    rewrite Hnone in *. simpl in *. f_equal. exact IH.
  - assert (filter (fun gap => (0.8 <= priority gap)%Q) gs = []) as Hnone1.
    { apply filter_none. eapply Forall_impl; [exact Hall|].
      intros x Hx. simpl in Hx. lra. }
    assert (filter (fun gap => (0.5 <= priority gap /\ priority gap < 0.8)%Q) gs = [])
      as Hnone2.
    { apply filter_none. eapply Forall_impl; [exact Hall|].
      intros x Hx. simpl in Hx. lra. }
    rewrite Hnone1, Hnone2 in *. simpl in *. f_equal. exact IH.
Qed.

(** X24.  For a gap list in descending priority order the phases, read one after
    the other, list the gaps in the order of the list. *)
Theorem timeline_keeps_sorted_order gs :
  Spec.priority_sorted gs ->
  concat (map skills (phases (_create_development_timeline gs))) = gs.
Proof.
  intros Hs.
  destruct (timeline_cases gs) as (Hphases & _).
  rewrite Hphases, keep_nonempty_concat. simpl. rewrite app_nil_r.
  apply bands_of_sorted, Hs.
Qed.

Lemma timeline_keeps_sorted_order_witness :
  concat (map skills (phases (_create_development_timeline
                                [Sample.python_gap; Sample.sql_gap])))
  = [Sample.python_gap; Sample.sql_gap].
Proof.
  apply timeline_keeps_sorted_order.
  repeat constructor; vm_compute; discriminate.
Defined.

(** ** [clean_text] *)

Lemma blanked_char (c : ascii) :
  let c1 := PyStr.lower_char c in
  Facts.is_blanked_char (if Re.is_word c1 || Re.is_space c1 then c1 else " "%char) = true.
Proof.
  destruct c as [[] [] [] [] [] [] [] []]; vm_compute; reflexivity.
Qed.

Lemma squeezed_char (c : ascii) :
  Facts.is_blanked_char c = true -> Re.is_space c = false ->
  Facts.is_squeezed_char c = true.
Proof.
  destruct c as [[] [] [] [] [] [] [] []]; vm_compute; auto.
Qed.

Lemma clean_char (c : ascii) :
  Facts.is_squeezed_char c = true -> Re.is_digit c = false ->
  Facts.is_clean_char c = true.
Proof.
  destruct c as [[] [] [] [] [] [] [] []]; vm_compute; auto.
Qed.

Lemma blank_specials_chars (text : string) :
  Facts.all_chars Facts.is_blanked_char (Re.blank_specials (PyStr.lower text)).
Proof.
  induction text as [|c text IH]; simpl; [exact I|].
  split; [apply blanked_char | exact IH].
Qed.

Lemma squeeze_from_chars (in_run : bool) (text : string) :
  Facts.all_chars Facts.is_blanked_char text ->
  Facts.all_chars Facts.is_squeezed_char (Re.squeeze_from in_run text).
Proof.
  revert in_run. induction text as [|c text IH]; intros in_run; simpl; [auto|].
  intros [Hc Hrest].
  destruct (Re.is_space c) eqn:Hsp.
  - destruct in_run; simpl; [|split; [reflexivity|]]; apply IH, Hrest.
  - simpl. split; [apply squeezed_char; assumption | apply IH, Hrest].
Qed.

Lemma drop_digits_chars (text : string) :
  Facts.all_chars Facts.is_squeezed_char text ->
  Facts.all_chars Facts.is_clean_char (Re.drop_digits text).
Proof.
  induction text as [|c text IH]; simpl; [auto|].
  intros [Hc Hrest].
  destruct (Re.is_digit c) eqn:Hd; [apply IH, Hrest|].
  simpl. split; [apply clean_char; assumption | apply IH, Hrest].
Qed.

Lemma lstrip_chars test (text : string) :
  Facts.all_chars test text -> Facts.all_chars test (PyStr.lstrip text).
Proof.
  induction text as [|c text IH]; simpl; [auto|].
  intros [Hc Hrest]. destruct (PyStr.is_space c); [apply IH, Hrest|].
  simpl. auto.
Qed.

Lemma rstrip_chars test (text : string) :
  Facts.all_chars test text -> Facts.all_chars test (PyStr.rstrip text).
Proof.
  induction text as [|c text IH]; simpl; [auto|].
  intros [Hc Hrest]. specialize (IH Hrest).
  destruct (PyStr.rstrip text) as [|d rest'].
  - destruct (PyStr.is_space c); simpl; auto.
  - simpl in *. auto.
Qed.

Lemma not_space_not_blank (c : ascii) :
  PyStr.is_space c = false -> (nat_of_ascii c =? 32)%nat = false.
Proof.
  unfold PyStr.is_space. intros H.
  apply orb_false_elim in H as [H _]. apply orb_false_elim in H as [H _]. exact H.
Qed.

Lemma lstrip_start (text : string) :
  Facts.starts_with_space (PyStr.lstrip text) = false.
Proof.
  induction text as [|c text IH]; simpl; [reflexivity|].
  destruct (PyStr.is_space c) eqn:Hsp; [exact IH|].
  simpl. apply not_space_not_blank, Hsp.
Qed.

Lemma rstrip_start (text : string) :
  Facts.starts_with_space text = false ->
  Facts.starts_with_space (PyStr.rstrip text) = false.
Proof.
  destruct text as [|c text]; simpl; [auto|]. intros Hc.
  destruct (PyStr.rstrip text); [destruct (PyStr.is_space c)|]; simpl; auto.
Qed.

Lemma rstrip_end (text : string) :
  Facts.ends_with_space (PyStr.rstrip text) = false.
Proof.
  induction text as [|c text IH]; simpl; [reflexivity|].
  destruct (PyStr.rstrip text) as [|d rest'].
  - destruct (PyStr.is_space c) eqn:Hsp; simpl; [reflexivity|].
    apply not_space_not_blank, Hsp.
  - exact IH.
Qed.

(** X25.  The cleaned form of an ASCII text holds lower-case letters,
    underscores and spaces only, and neither starts nor ends with a
    space. *)
Theorem clean_text_alphabet (text : string) :
  Facts.ascii_only text ->
  Facts.all_chars Facts.is_clean_char (clean_text text)
  /\ Facts.starts_with_space (clean_text text) = false
  /\ Facts.ends_with_space (clean_text text) = false.
Proof.
  intros _. unfold clean_text.
  destruct text as [|c text]; [repeat split|].
  set (t := Re.drop_digits (Re.squeeze (Re.blank_specials (PyStr.lower (String c text))))).
  unfold PyStr.strip. split; [|split].
  - apply rstrip_chars, lstrip_chars, drop_digits_chars, squeeze_from_chars,
      blank_specials_chars.
  - apply rstrip_start, lstrip_start.
  - apply rstrip_end.
Qed.

Lemma clean_text_alphabet_witness :
  Facts.all_chars Facts.is_clean_char (clean_text "Wrote  3 ETL-jobs & APIs!")
  /\ Facts.starts_with_space (clean_text "Wrote  3 ETL-jobs & APIs!") = false
  /\ Facts.ends_with_space (clean_text "Wrote  3 ETL-jobs & APIs!") = false.
Proof.
  apply clean_text_alphabet. vm_compute. repeat split; lia.
Defined.

(** ** [preprocess_skills_list] *)

Lemma preprocess_skill_errors i skill :
  skill_entry_errors i (preprocess_skill skill) = skill_entry_errors i skill.
Proof.
  unfold skill_entry_errors, preprocess_skill. simpl.
  destruct (entry_name skill); reflexivity.
Qed.

Lemma preprocess_validate_from i skills :
  validate_skills_from i (preprocess_skills_list skills) = validate_skills_from i skills.
Proof.
  revert i. induction skills as [|skill rest IH]; intros i; simpl; [reflexivity|].
  rewrite preprocess_skill_errors. f_equal. apply IH.
Qed.

(** X26.  Preprocessing keeps the number of entries, their levels and
    experience, replaces each name by its canonical name, and changes
    nothing of what the validator reports. *)
Theorem preprocess_keeps_validation skills :
  length (preprocess_skills_list skills) = length skills
  /\ map entry_level (preprocess_skills_list skills) = map entry_level skills
  /\ map entry_experience (preprocess_skills_list skills) = map entry_experience skills
  /\ map entry_name (preprocess_skills_list skills)
     = map (fun skill => normalize_skill_name <$> entry_name skill) skills
  /\ validate_skills_data (preprocess_skills_list skills) = validate_skills_data skills.
Proof.
  split; [apply length_map|].
  split; [unfold preprocess_skills_list; rewrite map_map; reflexivity|].
  split; [unfold preprocess_skills_list; rewrite map_map; reflexivity|].
  split; [unfold preprocess_skills_list; rewrite map_map; reflexivity|].
  unfold validate_skills_data.
  rewrite (preprocess_validate_from 0 skills). reflexivity.
Qed.

Lemma level_criteria_rubric_witness :
  length (_get_level_criteria "sql" 3) = 3%nat
  /\ Forall (fun text => PyStr.contains "sql" text = true) (_get_level_criteria "sql" 3).
Proof. apply (proj1 (level_criteria_rubric "sql" 3)). lia. Defined.
